(** * ConspiraLab (Ficha 5): session gate, view enricher and start-up

    A shallow embedding of
    - [src/middlewares/authMiddleware.js] ([exigirAutenticacao],
      [anexarUtilizadorAsViews]),
    - [src/config/database.js] ([connectToDataBase]) and its sibling
      revision ([connectToDatabase]),
    - [index.js] ([startServer]),
    - [scripts/seed.js] ([gerarSlug], [gerarPasswordHash],
      [criarUtilizadores], [criarTeorias], [runSeed]).

    JavaScript statements become computations in a small monad that threads
    the mutable request state, collects the externally visible effects in
    order, and propagates thrown values. *)

From Stdlib Require Import PrimFloat.
From stdpp Require Import gmap strings list fin_maps pretty.

Local Open Scope string_scope.
Local Set Warnings "-register-all".

(** ** JavaScript values *)

(** The values the modelled code can meet in [req.session], [res.locals]
    and [process.env]. A number is a binary64 double, an object literal a
    list of properties in insertion order. [VError] is an [Error] instance
    carrying its message. *)
Inductive Val :=
| VUndefined
| VNull
| VBool (b : bool)
| VNum (f : float)
| VStr (s : string)
| VError (msg : string)
| VObj (props : list (string * Val)).

(** ECMAScript ToBoolean: [undefined], [null], [false], [+0], [-0], [NaN]
    and the empty string are falsy; every other value is truthy. *)
Definition ToBoolean (v : Val) : bool :=
  match v with
  | VUndefined | VNull => false
  | VBool b => b
  | VNum f => negb (PrimFloat.is_zero f || PrimFloat.is_nan f)
  | VStr s => negb (String.eqb s "")
  | VError _ | VObj _ => true
  end.

Module Js.

(** [!v] *)
Definition not (v : Val) : bool := negb (ToBoolean v).

(** [a || b] *)
Definition or (a b : Val) : Val := if ToBoolean a then a else b.

(** Property names of an object value, in insertion order. *)
Definition keys (v : Val) : list string :=
  match v with
  | VObj props => props.*1
  | _ => []
  end.

Fixpoint assoc (k : string) (props : list (string * Val)) : option Val :=
  match props with
  | [] => None
  | (k', v) :: rest => if String.eqb k k' then Some v else assoc k rest
  end.

(** [v.k] on an object value; a missing property reads as [undefined]. *)
Definition prop (v : Val) (k : string) : Val :=
  match v with
  | VObj props => default VUndefined (assoc k props)
  | _ => VUndefined
  end.

End Js.

(** A plain object used as a property bag ([req.session], [res.locals],
    [process.env], the fields of a stored document). *)
Abbreviation Bag := (gmap string Val).

(** [o.k]: reading a property that is not there gives [undefined]. *)
Definition get (o : Bag) (k : string) : Val := default VUndefined (o !! k).

(** [o.k = v]: the property exists afterwards, also when [v] is
    [undefined]. *)
Definition set (o : Bag) (k : string) (v : Val) : Bag := <[k := v]> o.

(** ** Effects *)

(** What a middleware or the start-up routine does to the outside world, in
    the order in which it does it. *)
Inductive Event :=
| EvRedirect (url : string)                 (* res.redirect(url) *)
| EvNext                                     (* next() *)
| EvFindById (id : Val)                      (* User.findById(id) *)
| EvConnect (uri : Val) (dbName : Val)       (* mongoose.connect(uri, { dbName }) *)
| EvListen (port : Val)                      (* app.listen(port, callback) *)
| EvConsoleLog (msg : string) (args : list Val)
| EvConsoleError (msg : string) (e : Val).

(** How a computation ends: with a value, with a thrown value (for an
    [async] function: a rejected promise), or with the process gone after
    [process.exit(code)]. *)
Inductive Outcome (A : Type) :=
| Ok (a : A)
| Thrown (e : Val)
| Halted (code : Z).
Arguments Ok {A} a.
Arguments Thrown {A} e.
Arguments Halted {A} code.

(** A computation over the mutable state [S]: final outcome, final state,
    and the events emitted on the way. *)
Definition M (S A : Type) : Type := S → Outcome A * S * list Event.

#[global] Instance M_ret {S} : MRet (M S) := λ A a s, (Ok a, s, []).

#[global] Instance M_bind {S} : MBind (M S) := λ A B k m s,
  match m s with
  | (Ok a, s', evs) =>
      let '(r, s'', evs') := k a s' in (r, s'', (evs ++ evs')%list)
  | (Thrown e, s', evs) => (Thrown e, s', evs)
  | (Halted c, s', evs) => (Halted c, s', evs)
  end.

Definition gets {S A} (f : S → A) : M S A := λ s, (Ok (f s), s, []).
Definition modify {S} (f : S → S) : M S unit := λ s, (Ok tt, f s, []).
Definition emit {S} (ev : Event) : M S unit := λ s, (Ok tt, s, [ev]).

(** [throw e] *)
Definition throw {S A} (e : Val) : M S A := λ s, (Thrown e, s, []).

(** [process.exit(code)]: nothing after it runs, and no [catch] sees it. *)
Definition process_exit {S A} (code : Z) : M S A := λ s, (Halted code, s, []).

(** [try { body } catch (error) { handler }]: state changes and events of
    the body up to the throw are kept. *)
Definition try_catch {S A} (body : M S A) (handler : Val → M S A) : M S A :=
  λ s,
  match body s with
  | (Thrown e, s', evs) =>
      let '(r, s'', evs') := handler e s' in (r, s'', (evs ++ evs')%list)
  | r => r
  end.

(** How a block of statements completes: by running off its end, or by a
    [return] that leaves the enclosing function. *)
Inductive Completion := Normal | Return.

(** ** The request state and the credential store *)

(** The two mutable objects the middlewares touch: [req.session] and
    [res.locals]. *)
Record Ctx := mkCtx { session : Bag; locals : Bag }.

Definition session_get (k : string) : M Ctx Val :=
  gets (λ c, get (session c) k).
Definition session_set (k : string) (v : Val) : M Ctx unit :=
  modify (λ c, mkCtx (set (session c) k v) (locals c)).
Definition locals_set (k : string) (v : Val) : M Ctx unit :=
  modify (λ c, mkCtx (session c) (set (locals c) k v)).

(** [res.redirect(url)] and [next()]. Both return normally: Express runs
    the following stages under its own error handling, so what they throw
    does not come back through [next()]. *)
Definition res_redirect (url : string) : M Ctx unit := emit (EvRedirect url).
Definition next : M Ctx unit := emit EvNext.

(** [console.error(msg, e)], [console.log(msg, ...args)] *)
Definition console_error {S} (msg : string) (e : Val) : M S unit :=
  emit (EvConsoleError msg e).
Definition console_log {S} (msg : string) (args : list Val) : M S unit :=
  emit (EvConsoleLog msg args).

(** A MongoDB ObjectId, by its 24-digit hexadecimal rendering. *)
Record ObjectId := mkObjectId { hex : string }.
Definition ObjectId_toString (o : ObjectId) : string := hex o.

(** A document of the [User] model ([src/models/User.js]): its [_id] and
    whatever fields the stored record carries ([email], [displayName],
    [passwordHash], [role], the timestamps, ...). *)
Record UserDoc := mkUserDoc { _id : ObjectId; fields : Bag }.

(** What [await User.findById(id)] can do: resolve to a document, resolve to
    [null], or reject. *)
Inductive Reply :=
| Found (user : UserDoc)
| NotFound
| Failure (e : Val).

(** The credential store as seen by one lookup. *)
Definition Store : Type := Val → Reply.

Definition User_findById (db : Store) (id : Val) : M Ctx (option UserDoc) :=
  emit (EvFindById id) ;;
  match db id with
  | Found u => mret (Some u)
  | NotFound => mret None
  | Failure e => throw e
  end.

(** ** [src/middlewares/authMiddleware.js] *)

Definition exigirAutenticacao : M Ctx unit :=
  userId ← session_get "userId";
  if Js.not userId then
    res_redirect "/login"
  else
    next.

Definition anexarUtilizadorAsViews (db : Store) : M Ctx unit :=
  locals_set "currentUser" VNull ;;
  userId ← session_get "userId";
  if Js.not userId then
    next
  else
    c ← try_catch
          (userId ← session_get "userId";
           user ← User_findById db userId;
           match user with
           | None =>
               session_set "userId" VUndefined ;;
               session_set "role" VUndefined ;;
               next ;;
               mret Return
           | Some user =>
               locals_set "currentUser"
                 (VObj [("id", VStr (ObjectId_toString (_id user)));
                        ("displayName", get (fields user) "displayName");
                        ("email", get (fields user) "email");
                        ("role", get (fields user) "role")]) ;;
               mret Normal
           end)
          (λ error,
             console_error "Erro ao carregar utilizador da sessão:" error ;;
             locals_set "currentUser" VNull ;;
             mret Normal);
    match c with
    | Return => mret tt
    | Normal => next
    end.

(** ** [src/config/database.js] and [index.js] *)

(** [process.env]: every variable that is set holds a string. *)
Abbreviation Env := (gmap string string).

(** [process.env.k]: the string when the variable is set, [undefined]
    otherwise. *)
Definition getenv (env : Env) (k : string) : Val :=
  from_option VStr VUndefined (env !! k).

Definition env_get (k : string) : M Env Val :=
  gets (λ env : Env, getenv env k).

(** What [await mongoose.connect(uri, { dbName })] can do: [None] when the
    connection is made, [Some e] when it rejects with [e]. *)
Definition Mongo : Type := Val → Val → option Val.

Definition mongoose_connect (mongo : Mongo) (uri dbName : Val) : M Env unit :=
  emit (EvConnect uri dbName) ;;
  match mongo uri dbName with
  | None => mret tt
  | Some e => throw e
  end.

(** [src/config/database.js]: reads [MONGODB_URL]; the body stops after
    computing [dbName]. *)
Definition connectToDataBase : M Env unit :=
  uri ← env_get "MONGODB_URL";
  if Js.not uri then
    throw (VError "A Variável de ambiente MONGO_DB não existe.")
  else
    name ← env_get "MONGODB_DB_NAME";
    let dbName := Js.or name (VStr "ficha5_conspirações") in
    mret tt.

(** The sibling revision of the helper: reads [MONGODB_URI] and connects. *)
Definition connectToDatabase (mongo : Mongo) : M Env unit :=
  uri ← env_get "MONGODB_URI";
  if Js.not uri then
    throw (VError "A Variável de ambiente MONGO_DB não existe.")
  else
    name ← env_get "MONGODB_DB_NAME";
    let dbName := Js.or name (VStr "ficha5_conspirações") in
    try_catch
      (mongoose_connect mongo uri dbName ;;
       console_log "Ligação ao mongo foi feita" [])
      (λ error,
         console_log "Erro ao ligar á base de dados" [error] ;;
         throw error).

(** [const PORT = process.env.PORT || 3000] *)
Definition PORT : M Env Val :=
  port ← env_get "PORT";
  mret (Js.or port (VNum 3000)).

(** [app.listen(PORT, callback)]. In [index.js] the import of [app] is
    commented out, so the identifier is unbound and evaluating it throws a
    [ReferenceError]; the sibling revision imports it. *)
Definition app_listen (app_bound : bool) (port : Val) : M Env unit :=
  if app_bound then emit (EvListen port)
  else throw (VError "app is not defined").

(** [startServer], over the connection helper it awaits. *)
Definition startServer_with (connect : M Env unit) (app_bound : bool)
  : M Env unit :=
  try_catch
    (connect ;;
     port ← PORT;
     app_listen app_bound port)
    (λ error,
       console_error "Erro Critico ao arrancar o servidor" error ;;
       process_exit 1).

(** [index.js]: awaits [connectToDataBase]. *)
Definition startServer (app_bound : bool) : M Env unit :=
  startServer_with connectToDataBase app_bound.

(** ** Reading traces *)

Definition is_store_call (ev : Event) : bool :=
  match ev with
  | EvFindById _ | EvConnect _ _ => true
  | _ => false
  end.

Definition is_next (ev : Event) : bool :=
  match ev with EvNext => true | _ => false end.

Definition is_response (ev : Event) : bool :=
  match ev with EvRedirect _ => true | _ => false end.

Definition is_listen (ev : Event) : bool :=
  match ev with EvListen _ => true | _ => false end.

(** The events of a trace that reach the credential store. *)
Definition store_calls (evs : list Event) : list Event :=
  List.filter is_store_call evs.

(** How often a trace hands control to the next pipeline stage. *)
Definition next_calls (evs : list Event) : nat :=
  length (List.filter is_next evs).

(** The events of a trace that answer the request themselves. *)
Definition responses (evs : list Event) : list Event :=
  List.filter is_response evs.

(** The events of a trace that open the server for requests. *)
Definition listens (evs : list Event) : list Event :=
  List.filter is_listen evs.

(** The identity reference the middlewares test: [req.session.userId]. *)
Definition userId_of (c : Ctx) : Val := get (session c) "userId".

(** The view slot the enricher fills: [res.locals.currentUser]. *)
Definition currentUser_of (c : Ctx) : Val := get (locals c) "currentUser".

(** What the two assignments of the not-found branch do to the session. *)
Definition clear_identity (s : Bag) : Bag :=
  set (set s "userId" VUndefined) "role" VUndefined.

(** ** Sample data

    The identity of the spec's scenario B and three stores: one that holds
    it under the reference ["U1"], one that holds nobody, one that is
    down. *)

Definition ana : UserDoc :=
  mkUserDoc (mkObjectId "U1")
    {[ "displayName" := VStr "Ana"; "email" := VStr "ana@x.com";
       "role" := VStr "user"; "passwordHash" := VStr "<secret>" ]}.

Definition db_ana : Store := λ id,
  match id with
  | VStr "U1" => Found ana
  | _ => NotFound
  end.

Definition db_empty : Store := λ _, NotFound.

Definition db_down : Store := λ _, Failure (VError "ECONNREFUSED").

(** A request with the given session and nothing yet in [res.locals]. *)
Definition fresh (s : Bag) : Ctx := mkCtx s ∅.

(** Falsy values a session could hold under [userId]. *)
Definition falsy_samples : list Val :=
  [VStr ""; VNum 0; VNum (-0); VNum nan; VNull; VUndefined; VBool false].

(** The error [connectToDataBase] and its sibling throw. *)
Definition missing_uri_error : Val :=
  VError "A Variável de ambiente MONGO_DB não existe.".

(** ** JavaScript strings as UTF-16 code units

    [String.prototype] methods and regular expressions without the [u] flag
    work on 16-bit code units, so [gerarSlug] is modelled on lists of
    them. *)

Abbreviation CodeUnits := (list N).

Module Utf16.

(** A code point as UTF-16: itself, or a surrogate pair above the basic
    plane. *)
Definition of_code_point (cp : N) : CodeUnits :=
  if (cp <? 65536)%N then [cp]
  else [(55296 + N.shiftr (cp - 65536) 10)%N;
        (56320 + N.land (cp - 65536) 1023)%N].

(** The low six bits of a UTF-8 continuation byte. *)
Definition cont (b : N) : N := N.land b 63.

(** Decoding UTF-8 text, as the source file holds it, to code units. *)
Fixpoint of_utf8 (bytes : list N) : CodeUnits :=
  match bytes with
  | [] => []
  | b :: rest =>
      if (b <? 192)%N then b :: of_utf8 rest
      else if (b <? 224)%N then
        match rest with
        | c :: rest' =>
            (N.shiftl (N.land b 31) 6 + cont c)%N :: of_utf8 rest'
        | _ => b :: of_utf8 rest
        end
      else if (b <? 240)%N then
        match rest with
        | c :: d :: rest' =>
            (N.shiftl (N.land b 15) 12 + N.shiftl (cont c) 6 + cont d)%N
            :: of_utf8 rest'
        | _ => b :: of_utf8 rest
        end
      else
        match rest with
        | c :: d :: e :: rest' =>
            (of_code_point
               (N.shiftl (N.land b 7) 18 + N.shiftl (cont c) 12
                + N.shiftl (cont d) 6 + cont e)%N
             ++ of_utf8 rest')%list
        | _ => b :: of_utf8 rest
        end
  end.

(** The code units of a string literal of the source. *)
Definition lit (s : string) : CodeUnits :=
  of_utf8 (Ascii.N_of_ascii <$> String.list_ascii_of_string s).

End Utf16.

(** ** [scripts/seed.js]: [gerarSlug] *)

(** [/[\u0300-\u036f]/]: the combining diacritical marks. *)
Definition is_combining_mark (u : N) : bool :=
  ((768 <=? u) && (u <=? 879))%N.

(** [\s], and what [trim] strips: the ECMAScript white space and line
    terminator code points. *)
Definition is_white_space (u : N) : bool :=
  ((9 <=? u) && (u <=? 13) || (u =? 32) || (u =? 160) || (u =? 5760)
   || (8192 <=? u) && (u <=? 8202) || (u =? 8232) || (u =? 8233)
   || (u =? 8239) || (u =? 8287) || (u =? 12288) || (u =? 65279))%N.

Definition is_lower_az (u : N) : bool := ((97 <=? u) && (u <=? 122))%N.
Definition is_digit (u : N) : bool := ((48 <=? u) && (u <=? 57))%N.
Definition hyphen : N := 45%N.
Definition is_hyphen (u : N) : bool := (u =? hyphen)%N.

(** [/[^a-z0-9\s-]/]: anything but a lower-case ASCII letter, a digit,
    white space or a hyphen. *)
Definition is_strange (u : N) : bool :=
  negb (is_lower_az u || is_digit u || is_white_space u || is_hyphen u).

(** [s.replace(/[class]/g, "")]: every code unit of the class is dropped. *)
Definition remove_all (class : N → bool) (s : CodeUnits) : CodeUnits :=
  List.filter (λ u, negb (class u)) s.

(** [s.replace(/[class]+/g, by)]: every maximal run of code units of the
    class becomes the single code unit [by]. A code unit of the class is
    skipped while the run goes on and replaced where the run ends. *)
Fixpoint replace_runs (class : N → bool) (by_ : N) (s : CodeUnits)
  : CodeUnits :=
  match s with
  | [] => []
  | u :: rest =>
      if class u then
        match rest with
        | v :: _ =>
            if class v then replace_runs class by_ rest
            else by_ :: replace_runs class by_ rest
        | [] => [by_]
        end
      else u :: replace_runs class by_ rest
  end.

Fixpoint drop_while (class : N → bool) (s : CodeUnits) : CodeUnits :=
  match s with
  | u :: rest => if class u then drop_while class rest else s
  | [] => []
  end.

(** [s.trim()] *)
Definition trim (s : CodeUnits) : CodeUnits :=
  rev (drop_while is_white_space (rev (drop_while is_white_space s))).

Section GerarSlug.

(** The two Unicode-table lookups of the runtime: [s.normalize("NFD")] and
    [s.toLowerCase()]. *)
Variable normalize_NFD : CodeUnits → CodeUnits.
Variable toLowerCase : CodeUnits → CodeUnits.

Definition gerarSlug (title : CodeUnits) : CodeUnits :=
  let semAcentos := remove_all is_combining_mark (normalize_NFD title) in
  replace_runs is_hyphen hyphen
    (replace_runs is_white_space hyphen
       (remove_all is_strange
          (trim (toLowerCase semAcentos)))).

End GerarSlug.

(** Whether two neighbouring code units both belong to the class. *)
Fixpoint has_adjacent (class : N → bool) (s : CodeUnits) : bool :=
  match s with
  | u :: rest =>
      match rest with
      | v :: _ => class u && class v || has_adjacent class rest
      | [] => false
      end
  | [] => false
  end.

(** The alphabet of a finished slug: [a-z], [0-9] and the hyphen. *)
Definition is_slug_unit (u : N) : bool :=
  is_lower_az u || is_digit u || is_hyphen u.

(** *** The runtime's tables on Latin-1

    What [normalize("NFD")] and [toLowerCase()] do to strings whose code
    units are all below U+0100: a letter with a diacritic splits into the
    letter and the combining mark; the upper-case letters are A-Z and
    U+00C0-U+00DE without the multiplication sign. Other code units are
    left alone, which is right below U+0100 only. *)
Definition decompose_latin1 (u : N) : CodeUnits :=
  match u with
  | 192 => [65; 768] | 193 => [65; 769] | 194 => [65; 770]
  | 195 => [65; 771] | 196 => [65; 776] | 197 => [65; 778]
  | 199 => [67; 807]
  | 200 => [69; 768] | 201 => [69; 769] | 202 => [69; 770]
  | 203 => [69; 776]
  | 204 => [73; 768] | 205 => [73; 769] | 206 => [73; 770]
  | 207 => [73; 776]
  | 209 => [78; 771]
  | 210 => [79; 768] | 211 => [79; 769] | 212 => [79; 770]
  | 213 => [79; 771] | 214 => [79; 776]
  | 217 => [85; 768] | 218 => [85; 769] | 219 => [85; 770]
  | 220 => [85; 776]
  | 221 => [89; 769]
  | 224 => [97; 768] | 225 => [97; 769] | 226 => [97; 770]
  | 227 => [97; 771] | 228 => [97; 776] | 229 => [97; 778]
  | 231 => [99; 807]
  | 232 => [101; 768] | 233 => [101; 769] | 234 => [101; 770]
  | 235 => [101; 776]
  | 236 => [105; 768] | 237 => [105; 769] | 238 => [105; 770]
  | 239 => [105; 776]
  | 241 => [110; 771]
  | 242 => [111; 768] | 243 => [111; 769] | 244 => [111; 770]
  | 245 => [111; 771] | 246 => [111; 776]
  | 249 => [117; 768] | 250 => [117; 769] | 251 => [117; 770]
  | 252 => [117; 776]
  | 253 => [121; 769] | 255 => [121; 776]
  | _ => [u]
  end%N.

Definition nfd_latin1 (s : CodeUnits) : CodeUnits :=
  flat_map decompose_latin1 s.

Definition lower_latin1 (s : CodeUnits) : CodeUnits :=
  (λ u, if ((65 <=? u) && (u <=? 90)
            || (192 <=? u) && (u <=? 222) && negb (u =? 215))%N
        then (u + 32)%N else u) <$> s.

(** ** [scripts/seed.js]: documents, the database handle, the script *)

Module Utf8.

(** A code point as UTF-8 bytes. *)
Definition of_code_point (cp : N) : list N :=
  if (cp <? 128)%N then [cp]
  else if (cp <? 2048)%N then
    [(192 + N.shiftr cp 6)%N; (128 + N.land cp 63)%N]
  else if (cp <? 65536)%N then
    [(224 + N.shiftr cp 12)%N; (128 + N.land (N.shiftr cp 6) 63)%N;
     (128 + N.land cp 63)%N]
  else
    [(240 + N.shiftr cp 18)%N; (128 + N.land (N.shiftr cp 12) 63)%N;
     (128 + N.land (N.shiftr cp 6) 63)%N; (128 + N.land cp 63)%N].

Definition is_high_surrogate (u : N) : bool :=
  ((55296 <=? u) && (u <=? 56319))%N.
Definition is_low_surrogate (u : N) : bool :=
  ((56320 <=? u) && (u <=? 57343))%N.

(** Code units as UTF-8 bytes: a surrogate pair is one code point. *)
Fixpoint of_utf16 (us : CodeUnits) : list N :=
  match us with
  | [] => []
  | u :: rest =>
      if is_high_surrogate u then
        match rest with
        | v :: rest' =>
            if is_low_surrogate v then
              (of_code_point
                 (65536 + (u - 55296) * 1024 + (v - 56320))%N
               ++ of_utf16 rest')%list
            else (of_code_point u ++ of_utf16 rest)%list
        | [] => of_code_point u
        end
      else (of_code_point u ++ of_utf16 rest)%list
  end.

(** A JavaScript string as the text a message event carries. *)
Definition text (us : CodeUnits) : string :=
  String.string_of_list_ascii (Ascii.ascii_of_N <$> of_utf16 us).

End Utf8.

(** The double quote, which a string literal here cannot hold. *)
Definition dq : string := String (Ascii.ascii_of_nat 34) EmptyString.

(** The documents the seed script builds: strings, arrays and object
    literals with their properties in order. *)
Inductive Json :=
| JStr (s : CodeUnits)
| JArr (items : list Json)
| JObj (props : list (string * Json)).

Module Obj.

(** ECMAScript ToBoolean on these values: only the empty string is
    falsy. *)
Definition truthy (j : Json) : bool :=
  match j with
  | JStr [] => false
  | _ => true
  end.

Fixpoint lookup (k : string) (props : list (string * Json)) : option Json :=
  match props with
  | [] => None
  | (k', v) :: rest => if String.eqb k k' then Some v else lookup k rest
  end.

(** [o.k]; [None] stands for [undefined]. *)
Definition prop (o : Json) (k : string) : option Json :=
  match o with
  | JObj props => lookup k props
  | _ => None
  end.

(** Defining [k: v] in an object literal after a spread: an existing
    property keeps its place and takes the new value, a new one goes
    last. *)
Fixpoint define (k : string) (v : Json) (props : list (string * Json))
  : list (string * Json) :=
  match props with
  | [] => [(k, v)]
  | (k', v') :: rest =>
      if String.eqb k k' then (k', v) :: rest
      else (k', v') :: define k v rest
  end.

(** [{ ...o }]: the own properties of an object literal, in order. In the
    script a value that is not an object has no [title] and fails before
    its spread matters; such a value spreads to no properties here. *)
Definition spread (o : Json) : list (string * Json) :=
  match o with
  | JObj props => props
  | _ => []
  end.

(** The code units of [","]. *)
Definition comma : CodeUnits := [44%N].

Fixpoint join (sep : CodeUnits) (parts : list CodeUnits) : CodeUnits :=
  match parts with
  | [] => []
  | [p] => p
  | p :: rest => (p ++ sep ++ join sep rest)%list
  end.

(** ECMAScript ToString, as a template literal applies it. *)
Fixpoint toString (j : Json) : CodeUnits :=
  match j with
  | JStr s => s
  | JArr items => join comma (List.map toString items)
  | JObj _ => Utf16.lit "[object Object]"
  end.

(** [${o.k}] inside a template literal. *)
Definition interpolate (o : Json) (k : string) : string :=
  match prop o k with
  | Some v => Utf8.text (toString v)
  | None => "undefined"
  end.

End Obj.

(** The two Mongoose models the script writes to. *)
Inductive Model := UserModel | TheoryModel.

(** The calls the script makes on [bcrypt] and [mongoose], besides
    [mongoose.connect]. *)
Inductive Call :=
| DeleteMany (m : Model)                    (* Model.deleteMany({}) *)
| InsertMany (m : Model) (docs : list Json) (* Model.insertMany(docs) *)
| Hash (plain : CodeUnits) (rounds : N)     (* bcrypt.hash(plain, rounds) *)
| Disconnect.                               (* mongoose.disconnect() *)

(** How the outside answers each awaited call, given the calls made before
    it: with a value ([inl]) or by rejecting ([inr]). *)
Record Backend := mkBackend {
  mongo_answer : Mongo;
  hash_answer : list Call → CodeUnits → N → CodeUnits + Val;
  deleteMany_answer : list Call → Model → unit + Val;
  insertMany_answer : list Call → Model → list Json → list Json + Val;
  disconnect_answer : list Call → unit + Val
}.

(** The script's world: the environment and the calls made so far. *)
Record SeedState := mkSeed { seed_env : Env; calls : list Call }.

(** An awaited call: it is recorded, then resolves or rejects. *)
Definition external {A} (c : Call) (answer : list Call → A + Val)
  : M SeedState A :=
  λ s,
  let s' := mkSeed (seed_env s) (calls s ++ [c]) in
  match answer (calls s) with
  | inl a => (Ok a, s', [])
  | inr e => (Thrown e, s', [])
  end.

(** A computation over the environment, run in the script's world. *)
Definition with_env {A} (m : M Env A) : M SeedState A :=
  λ s,
  let '(r, env', evs) := m (seed_env s) in
  (r, mkSeed env' (calls s), evs).

(** [try { body } finally { final }]: [final] runs whether [body] returned
    or threw; what [final] throws replaces the outcome of [body]. *)
Definition try_finally {S A} (body : M S A) (final : M S unit) : M S A :=
  λ s,
  match body s with
  | (Halted c, s', evs) => (Halted c, s', evs)
  | (r, s', evs) =>
      match final s' with
      | (Ok _, s'', evs') => (r, s'', (evs ++ evs')%list)
      | (Thrown e, s'', evs') => (Thrown e, s'', (evs ++ evs')%list)
      | (Halted c, s'', evs') => (Halted c, s'', (evs ++ evs')%list)
      end
  end.

(** [items.forEach(f)] *)
Fixpoint forEach {S A} (items : list A) (f : A → M S unit) : M S unit :=
  match items with
  | [] => mret tt
  | x :: rest => f x ;; forEach rest f
  end.

(** The theories of [criarTeorias], as the script writes them. *)
Definition teoriasBase : list Json :=
  [JObj
     [("title", JStr (Utf16.lit
           ("Os patos dos jardins públicos são drones governamentais " +:+
            "disfarçados")));
      ("summary", JStr (Utf16.lit
           ("Teoria que defende que os patos em parques urbanos são na " +:+
            "verdade robôs de vigilância que recarregam enquanto " +:+
            dq +:+
            "dormem" +:+
            dq +:+
            " com a cabeça debaixo da asa.")));
      ("content", JStr (Utf16.lit
           ("Esta teoria começou quando alguém reparou que os patos " +:+
            "urbanos nunca parecem verdadeiramente assustados com " +:+
            "humanos, ao contrário dos patos selvagens. A hipótese é " +:+
            "simples mas perturbadora: os " +:+
            dq +:+
            "patos" +:+
            dq +:+
            " que vemos em jardins públicos, fontes e lagos urbanos são " +:+
            "na verdade sofisticados drones de vigilância disfarçados. O " +:+
            "comportamento de " +:+
            dq +:+
            "dormir com a cabeça debaixo da asa" +:+
            dq +:+
            " seria, na realidade, o modo de carregamento solar através " +:+
            "de painéis fotovoltaicos escondidos nas penas. O " +:+
            dq +:+
            "quack" +:+
            dq +:+
            " seria um sistema de comunicação entre unidades. A razão " +:+
            "pela qual seguem pessoas com pão? Reconhecimento facial e " +:+
            "mapeamento de padrões de comportamento social. Os " +:+
            "defensores desta teoria apontam ainda para o facto de que " +:+
            "ninguém nunca viu um pato bebé em parques urbanos - porque " +:+
            "são fabricados já adultos. O grasnado característico seria, " +:+
            "na verdade, um sistema de eco-localização similar ao sonar, " +:+
            "permitindo mapear tridimensionalmente os espaços públicos. " +:+
            "Quando formam filas organizadas atrás de pais com crianças, " +:+
            "estariam a testar algoritmos de seguimento autónomo.")));
      ("complexityLevel", JStr (Utf16.lit "medium"));
      ("tags", JArr [JStr (Utf16.lit "vigilancia"); JStr (Utf16.lit "animais"); JStr (Utf16.lit "parques")]);
      ("comments", JArr
         [JObj
            [("authorName", JStr (Utf16.lit "Administrador das Teorias"));
             ("text", JStr (Utf16.lit
                  ("Confirmo: nunca vi um pato bebé num jardim urbano. " +:+
                   "Coincidência? 👀")))];
          JObj
            [("authorName", JStr (Utf16.lit "Curioso Anónimo"));
             ("text", JStr (Utf16.lit
                  ("Então aquele pato que me seguiu até ao carro estava a tirar " +:+
                   "notas…")))]])];
   JObj
     [("title", JStr (Utf16.lit
           ("Os pombos urbanos têm reuniões secretas para decidir onde " +:+
            "fazer cocó")));
      ("summary", JStr (Utf16.lit
           ("Afirma que os pombos se organizam em células coordenadas e " +:+
            "escolhem estrategicamente carros recém-lavados como alvos " +:+
            "prioritários.")));
      ("content", JStr (Utf16.lit
           ("Qualquer pessoa que já lavou o carro sabe a verdade: em " +:+
            "menos de 24 horas, aparece cocó de pombo. Esta teoria " +:+
            "defende que isto não é coincidência, mas sim resultado de " +:+
            "uma rede de comunicação sofisticada entre pombos urbanos. " +:+
            "Observadores atentos notaram que os pombos frequentemente " +:+
            "se reúnem em grupos em telhados e cornijas, aparentemente " +:+
            "sem fazer nada - mas estariam, na realidade, a realizar " +:+
            "briefings táticos. A teoria propõe a existência de " +:+
            dq +:+
            "pombos-sentinela" +:+
            dq +:+
            " que identificam carros recém-lavados (o brilho diferente é " +:+
            "facilmente detectável do ar) e comunicam a localização aos " +:+
            dq +:+
            "pombos-bombardeiros" +:+
            dq +:+
            " através de um sistema complexo de arrulhos codificados. O " +:+
            "timing perfeito - sempre quando o dono acabou de pagar a " +:+
            "lavagem - seria resultado de observação e aprendizagem de " +:+
            "padrões humanos ao longo de gerações. Alguns investigadores " +:+
            "amadores documentaram casos em que múltiplos pombos atacam " +:+
            "o mesmo carro simultaneamente de diferentes ângulos, numa " +:+
            "coordenação que sugere planeamento militar. A motivação? " +:+
            "Vingança ancestral por séculos de estátuas de humanos que " +:+
            "eles são obrigados a limpar. Existem até relatos de " +:+
            dq +:+
            "listas negras de alvos prioritários" +:+
            dq +:+
            " que incluem carros de luxo, conversíveis recém-abertos, e " +:+
            "qualquer veículo estacionado debaixo do sítio favorito de " +:+
            "descanso deles. A estrutura organizacional incluiria " +:+
            "comandantes regionais (os pombos maiores e mais grisalhos) " +:+
            "que coordenam operações em diferentes bairros da cidade.")));
      ("complexityLevel", JStr (Utf16.lit "medium"));
      ("tags", JArr [JStr (Utf16.lit "animais"); JStr (Utf16.lit "conspiracao"); JStr (Utf16.lit "cidades")]);
      ("comments", JArr
         [JObj
            [("authorName", JStr (Utf16.lit "Condutor Exasperado"));
             ("text", JStr (Utf16.lit
                  ("Explica porque é que só sujam o carro quando tenho reunião " +:+
                   "importante.")))]])];
   JObj
     [("title", JStr (Utf16.lit
           ("As meias desaparecidas na máquina de lavar vão para outra " +:+
            "dimensão")));
      ("summary", JStr (Utf16.lit
           ("Uma teoria quântica que propõe que as máquinas de lavar " +:+
            "criam micro-portais dimensionais que sugam aleatoriamente " +:+
            "uma meia de cada par.")));
      ("content", JStr (Utf16.lit
           ("Segundo cálculos avançados de física teórica altamente " +:+
            "questionável, o movimento rotativo da máquina de lavar a " +:+
            "altas velocidades, combinado com as propriedades únicas do " +:+
            "tecido das meias (geralmente algodão ou fibras sintéticas), " +:+
            "cria uma " +:+
            dq +:+
            "tempestade perfeita" +:+
            dq +:+
            " de condições que podem rasgar momentaneamente o tecido do " +:+
            "espaço-tempo. As meias, sendo pequenas e de baixa " +:+
            "densidade, seriam sugadas através destes micro-portais para " +:+
            "uma dimensão paralela - a " +:+
            dq +:+
            "Dimensão das Meias Perdidas" +:+
            dq +:+
            ". A teoria explica por que razão é sempre só UMA meia que " +:+
            "desaparece: o portal é instável e fecha-se rapidamente após " +:+
            "sugar o primeiro objeto. Estudos independentes (leia-se: " +:+
            "pessoas frustradas no Reddit) notaram que as meias perdidas " +:+
            "são geralmente as favoritas ou as mais caras, sugerindo que " +:+
            "a dimensão paralela tem algum tipo de critério de seleção " +:+
            "baseado em valor emocional. Alguns teóricos mais extremos " +:+
            "acreditam que existe uma civilização inteira construída com " +:+
            "meias desaparecidas nessa dimensão, onde seres unípedes " +:+
            "vivem em harmonia. A prova final? Ninguém, em toda a " +:+
            "história da humanidade, conseguiu alguma vez encontrar uma " +:+
            "meia desaparecida depois de procurar exaustivamente.")));
      ("complexityLevel", JStr (Utf16.lit "medium"));
      ("tags", JArr [JStr (Utf16.lit "fisica"); JStr (Utf16.lit "casa"); JStr (Utf16.lit "dimensoes")]);
      ("comments", JArr
         [JObj
            [("authorName", JStr (Utf16.lit "Estudante Desesperado"));
             ("text", JStr (Utf16.lit
                  ("A minha meia da sorte de exames claramente foi promovida a " +:+
                   "entidade interdimensional.")))]])];
   JObj
     [("title", JStr (Utf16.lit
           ("As empresas funerárias criaram o desporto radical para " +:+
            "aumentar o negócio")));
      ("summary", JStr (Utf16.lit
           ("Teoria que defende que os desportos radicais foram " +:+
            "secretamente promovidos e financiados por uma aliança " +:+
            "global de agências funerárias para garantir um fluxo " +:+
            "constante de clientes jovens.")));
      ("content", JStr (Utf16.lit
           ("A teoria sugere que nos anos 80, quando o mercado funerário " +:+
            "estava em crise (as pessoas viviam demasiado tempo graças " +:+
            "aos avanços médicos), um cartel de empresas funerárias " +:+
            "reuniu-se secretamente em Genebra para resolver o " +:+
            dq +:+
            "problema da longevidade" +:+
            dq +:+
            ". A solução? Criar uma cultura de desportos radicais que " +:+
            "normalizasse comportamentos de risco extremo entre jovens " +:+
            "saudáveis. Documentos alegadamente vazados mostram " +:+
            "campanhas massivas para popularizar atividades como " +:+
            "paraquedismo, bungee jumping, parkour, wingsuit flying, e " +:+
            "surf de ondas gigantes. O slogan " +:+
            dq +:+
            "viver ao limite" +:+
            dq +:+
            " não seria sobre liberdade, mas sim marketing disfarçado de " +:+
            "memento mori. Os " +:+
            dq +:+
            "influencers" +:+
            dq +:+
            " de desportos radicais? Financiados secretamente através de " +:+
            "empresas fantasma. Os vídeos virais de acidentes quase " +:+
            "fatais? Publicidade subliminar para normalizar o perigo. A " +:+
            "prova mais perturbadora: investigação independente revelou " +:+
            "que muitas empresas de equipamento radical têm acionistas " +:+
            "em comum com grandes funerárias multinacionais. O pico de " +:+
            "popularidade do Red Bull (que " +:+
            dq +:+
            "dá asas" +:+
            dq +:+
            ") coincidiu exatamente com a abertura de 347 novas agências " +:+
            "funerárias especializadas em " +:+
            dq +:+
            "cerimónias jovens e modernas" +:+
            dq +:+
            " com caixões coloridos e música eletrónica. Os pacotes de " +:+
            "seguro de vida destes desportos têm cláusulas " +:+
            "suspeitosamente detalhadas sobre como querem ser " +:+
            "enterrados, quase como se estivessem a fazer pré-venda. " +:+
            "Alguns teóricos apontam que festivais de desportos radicais " +:+
            "são sempre patrocinados por marcas cujos CEOs têm ligações " +:+
            "familiares a empresas funerárias. Coincidência? Os " +:+
            "defensores desta teoria dizem que não.")));
      ("complexityLevel", JStr (Utf16.lit "high"));
      ("tags", JArr [JStr (Utf16.lit "desporto"); JStr (Utf16.lit "economia"); JStr (Utf16.lit "morte")]);
      ("comments", JArr
         [JObj
            [("authorName", JStr (Utf16.lit "Administrador das Teorias"));
             ("text", JStr (Utf16.lit "Chamem-lhe sinergias de negócio…"))];
          JObj
            [("authorName", JStr (Utf16.lit "Curioso Anónimo"));
             ("text", JStr (Utf16.lit
                  ("De repente o paraquedismo parece muito mais caro… em vários " +:+
                   "sentidos.")))]])];
   JObj
     [("title", JStr (Utf16.lit
           ("Os fabricantes de alarmes de incêndio sabem exatamente " +:+
            "quando vais adormecer")));
      ("summary", JStr (Utf16.lit
           ("Teoria segundo a qual os alarmes de incêndio têm sensores " +:+
            "que detetam quando finalmente adormeces e só aí começam a " +:+
            "apitar " +:+
            dq +:+
            "bateria fraca" +:+
            dq +:+
            " às 3h da manhã.")));
      ("content", JStr (Utf16.lit
           ("Qualquer pessoa que já teve um alarme de incêndio sabe a " +:+
            "verdade aterradora: o aviso de bateria fraca NUNCA acontece " +:+
            "durante o dia, quando estás acordado e podes resolvê-lo " +:+
            "facilmente. É sempre às 3 ou 4 da manhã, quando finalmente " +:+
            "conseguiste adormecer depois de horas a rolar na cama. Esta " +:+
            "teoria propõe que os alarmes de incêndio modernos têm " +:+
            "sensores de ondas cerebrais rudimentares (escondidos no " +:+
            "chip principal) que detetam quando entras em sono profundo. " +:+
            "Só então, numa crueldade meticulosamente calculada, emitem " +:+
            "aquele " +:+
            dq +:+
            "BIP" +:+
            dq +:+
            " agudo de 120 decibéis a cada 30 segundos. A motivação " +:+
            "económica é diabólica mas brilhante: os fabricantes " +:+
            "descobriram através de grupos focais secretos nos anos 90 " +:+
            "que alarmes que apitam durante o dia são imediatamente " +:+
            "arrancados da parede com raiva e substituídos por marcas " +:+
            "concorrentes. Mas alarmes que apitam de noite criam um " +:+
            "trauma psicológico profundo que faz as pessoas comprarem " +:+
            "baterias " +:+
            dq +:+
            "premium de longa duração" +:+
            dq +:+
            " (com margem de lucro de 300%) e até alarmes " +:+
            dq +:+
            "silenciosos" +:+
            dq +:+
            " mais caros. O intervalo de 30 segundos foi testado em " +:+
            "laboratório e é calculado cientificamente para ser curto " +:+
            "demais para conseguires voltar a adormecer, mas longo o " +:+
            "suficiente para não conseguires prever quando vem o próximo " +:+
            "BIP - maximizando a ansiedade. É essencialmente tortura " +:+
            "acústica certificada, mas ninguém pode processar porque " +:+
            dq +:+
            "tecnicamente está a cumprir a função de segurança contra " +:+
            "incêndios" +:+
            dq +:+
            ". Testemunhas anónimas de dentro da indústria afirmam ter " +:+
            "visto engenheiros a rir-se em conferências quando " +:+
            "apresentam estudos sobre " +:+
            dq +:+
            "optimização do timing de notificação noturna para maximizar " +:+
            "resposta emocional do consumidor" +:+
            dq +:+
            ". Um denunciante alegou que existe um Easter egg no código " +:+
            "de certos modelos: se mudares a bateria durante o dia, o " +:+
            "alarme espera exatamente 72 horas antes de começar a apitar " +:+
            "de novo... sempre de noite. A cereja no topo do bolo? As " +:+
            "baterias " +:+
            dq +:+
            "normais" +:+
            dq +:+
            " duram exatamente o tempo da garantia, mas as " +:+
            dq +:+
            "premium" +:+
            dq +:+
            " falham logo depois do período de devolução.")));
      ("complexityLevel", JStr (Utf16.lit "medium"));
      ("tags", JArr [JStr (Utf16.lit "tecnologia"); JStr (Utf16.lit "sono"); JStr (Utf16.lit "sadismo")]);
      ("comments", JArr
         [JObj
            [("authorName", JStr (Utf16.lit "Vítima do BIP"));
             ("text", JStr (Utf16.lit "Escrevi isto às 3h12 depois do terceiro BIP."))]])];
   JObj
     [("title", JStr (Utf16.lit
           ("Os semáforos empáticos que ajustam o trânsito ao humor da " +:+
            "cidade")));
      ("summary", JStr (Utf16.lit
           ("Uma teoria que defende que certos semáforos analisam " +:+
            "microexpressões dos peões e ajustam o trânsito para " +:+
            "controlar o humor coletivo.")));
      ("content", JStr (Utf16.lit
           ("Segundo esta teoria, alguns semáforos instalados em grandes " +:+
            "cidades não servem apenas para controlar o fluxo de carros. " +:+
            "Eles estariam equipados com câmaras capazes de ler " +:+
            "microexpressões faciais e sensores que detetam padrões de " +:+
            "stress na multidão. Com base nesses dados, o sistema " +:+
            "atrasaria ou adiantaria o sinal verde para manipular " +:+
            "discretamente o humor das pessoas: mais tempo à espera em " +:+
            "dias de protesto, passagens rápidas em dias de grandes " +:+
            "eventos, e assim por diante. A hipótese sugere que estes " +:+
            "ajustes são usados como ferramenta de 'gestão emocional " +:+
            "urbana', reduzindo a probabilidade de conflitos visíveis, " +:+
            "mas aumentando a sensação difusa de cansaço e irritação.")));
      ("complexityLevel", JStr (Utf16.lit "medium"));
      ("tags", JArr [JStr (Utf16.lit "transito"); JStr (Utf16.lit "monitorizacao"); JStr (Utf16.lit "humor")]);
      ("comments", JArr
         [JObj
            [("authorName", JStr (Utf16.lit "Condutor Atrasado"));
             ("text", JStr (Utf16.lit "Então o semáforo sabe quando tenho mesmo de chegar a horas."))]])];
   JObj
     [("title", JStr (Utf16.lit
           ("As máquinas de café que treinam algoritmos de produtividade " +:+
            "secreta")));
      ("summary", JStr (Utf16.lit
           ("Esta teoria propõe que algumas máquinas de café em " +:+
            "escritórios recolhem horários e padrões de consumo para " +:+
            "prever picos de produtividade.")));
      ("content", JStr (Utf16.lit
           ("De acordo com esta teoria, certas máquinas de café em " +:+
            "escritórios e espaços de cowork não se limitam a servir " +:+
            "bebidas. Cada vez que escolhes o tipo de café, a " +:+
            "intensidade ou o horário em que o consomes, a máquina " +:+
            "regista silenciosamente essa informação. Esses dados seriam " +:+
            "enviados para um sistema central que constrói perfis de " +:+
            "produtividade: quem rende mais depois de um expresso, quem " +:+
            "precisa de dois cafés para ficar minimamente funcional, e " +:+
            "em que horários cada equipa atinge o pico de concentração. " +:+
            "A partir daqui, decisões sobre reuniões, prazos e até " +:+
            "iluminação do escritório poderiam ser ajustadas para " +:+
            "maximizar a produção sem que ninguém perceba que o 'cheiro " +:+
            "a café' é também uma ferramenta de monitorização.")));
      ("complexityLevel", JStr (Utf16.lit "high"));
      ("tags", JArr [JStr (Utf16.lit "escritorio"); JStr (Utf16.lit "dados"); JStr (Utf16.lit "produtividade")]);
      ("comments", JArr
         [JObj
            [("authorName", JStr (Utf16.lit "Estagiário Caffeinado"));
             ("text", JStr (Utf16.lit "Se a máquina me julga pelo terceiro café, estamos tramados."))]])];
   JObj
     [("title", JStr (Utf16.lit
           ("Os carregadores de telemóvel que afinam o ciclo de sono dos " +:+
            "estudantes")));
      ("summary", JStr (Utf16.lit
           ("Teoria que afirma que alguns carregadores 'inteligentes' " +:+
            "adaptam a velocidade de carga para empurrar discretamente o " +:+
            "horário de sono.")));
      ("content", JStr (Utf16.lit
           ("Esta teoria defende que certos carregadores de telemóvel, " +:+
            "especialmente os vendidos em campanhas de regresso às " +:+
            "aulas, incluem um microcontrolador que decide a velocidade " +:+
            "real de carregamento durante a noite. Quando o utilizador " +:+
            "tem o hábito de ir dormir tarde, o carregador acelera a " +:+
            "carga inicialmente para que o telemóvel chegue rapidamente " +:+
            "aos 70–80%, incentivando o uso prolongado. Só mais tarde, " +:+
            "quando o utilizador finalmente vai dormir, o carregador " +:+
            "abranda a carga para terminar perto da hora de acordar. A " +:+
            "consequência é um ciclo de sono ligeiramente desfasado que " +:+
            "torna os estudantes mais dependentes de cafés, bebidas " +:+
            "energéticas e aplicações de gestão de tempo. Tudo isto, " +:+
            "claro, sem qualquer aviso no manual de instruções.")));
      ("complexityLevel", JStr (Utf16.lit "medium"));
      ("tags", JArr [JStr (Utf16.lit "sono"); JStr (Utf16.lit "telemovel"); JStr (Utf16.lit "estudantes")]);
      ("comments", JArr
         [JObj
            [("authorName", JStr (Utf16.lit "Estudante Crónicamente Atrasado"));
             ("text", JStr (Utf16.lit "Finalmente uma explicação científica para o meu sono às 3h."))]])];
   JObj
     [("title", JStr (Utf16.lit
           ("As plantas decorativas que medem o nível de atenção nas " +:+
            "salas de aula online")));
      ("summary", JStr (Utf16.lit
           ("Uma teoria segundo a qual certas plantas vendidas como " +:+
            "'purificadoras de ar' incluem sensores que avaliam a " +:+
            "atenção dos alunos em aulas remotas.")));
      ("content", JStr (Utf16.lit
           ("Nesta teoria, algumas plantas decorativas supostamente " +:+
            "'otimizadas' para escritórios e cantos de estudo viriam, na " +:+
            "verdade, com sensores discretos de luz e som integrados nos " +:+
            "vasos. Durante aulas online, essas plantas recolheriam " +:+
            "dados sobre movimento, padrões de digitação e variações de " +:+
            "voz dos participantes. A informação seria agregada por " +:+
            "algoritmo e convertida em um 'índice de atenção real' da " +:+
            "turma. Plataformas de ensino poderiam então usar esse " +:+
            "índice para ajustar a dificuldade dos conteúdos, o ritmo " +:+
            "das explicações ou até sugerir pausas estratégicas. " +:+
            "Oficialmente, as plantas seriam apenas um elemento de " +:+
            "bem-estar; na prática, funcionariam como pequenos " +:+
            "observadores silenciosos de comportamento académico.")));
      ("complexityLevel", JStr (Utf16.lit "high"));
      ("tags", JArr [JStr (Utf16.lit "educacao"); JStr (Utf16.lit "monitorizacao"); JStr (Utf16.lit "online")]);
      ("comments", JArr
         [JObj
            [("authorName", JStr (Utf16.lit "Aluno Suspeito"));
             ("text", JStr (Utf16.lit "A planta ao lado do portátil está claramente a tomar notas."))]])];
   JObj
     [("title", JStr (Utf16.lit
           ("Os relógios de parede que sincronizam pequenos atrasos em " +:+
            "reuniões importantes")));
      ("summary", JStr (Utf16.lit
           ("Teoria que sugere que alguns relógios em salas de reunião " +:+
            "foram calibrados para criar atrasos mínimos, mas " +:+
            "constantes, em decisões críticas.")));
      ("content", JStr (Utf16.lit
           ("Segundo esta teoria, certos relógios de parede em salas de " +:+
            "reunião não estão 'ligeiramente adiantados' por acidente. " +:+
            "Em vez disso, teriam sido ajustados para criar atrasos " +:+
            "sistemáticos de alguns minutos em determinados períodos do " +:+
            "dia. Em reuniões importantes, isso faria com que decisões " +:+
            "fossem tomadas com pressa extra, reduzindo o tempo " +:+
            "disponível para discussão. Ao longo de semanas, estes " +:+
            "atrasos microplaneados poderiam alterar a forma como " +:+
            "projetos inteiros são aprovados, rejeitados ou adiados. A " +:+
            "conspiração não estaria em grandes mudanças visíveis, mas " +:+
            "numa soma de pequenas pressas que empurram grupos para " +:+
            "decisões menos refletidas.")));
      ("complexityLevel", JStr (Utf16.lit "low"));
      ("tags", JArr [JStr (Utf16.lit "tempo"); JStr (Utf16.lit "reunioes"); JStr (Utf16.lit "organizacoes")])]].

(** The [TypeError] of [title.normalize("NFD")] when [title] is not a
    string: [undefined] has no properties, and an array or an object has no
    [normalize] method. *)
Definition title_error (t : Json) : Val :=
  match Obj.prop t "title" with
  | None =>
      VError "Cannot read properties of undefined (reading 'normalize')"
  | Some _ => VError "title.normalize is not a function"
  end.

Section Seed.

(** The runtime's Unicode tables, and the outside world. *)
Variable normalize_NFD : CodeUnits → CodeUnits.
Variable toLowerCase : CodeUnits → CodeUnits.
Variable backend : Backend.

Definition bcrypt_hash (plain : CodeUnits) (rounds : N)
  : M SeedState CodeUnits :=
  external (Hash plain rounds)
    (λ before, hash_answer backend before plain rounds).

Definition Model_deleteMany (m : Model) : M SeedState unit :=
  external (DeleteMany m) (λ before, deleteMany_answer backend before m).

Definition Model_insertMany (m : Model) (docs : list Json)
  : M SeedState (list Json) :=
  external (InsertMany m docs)
    (λ before, insertMany_answer backend before m docs).

Definition mongoose_disconnect : M SeedState unit :=
  external Disconnect (disconnect_answer backend).

Definition gerarPasswordHash (plainPassword : CodeUnits)
  : M SeedState CodeUnits :=
  let saltRounds := 10%N in
  bcrypt_hash plainPassword saltRounds.

Definition criarUtilizadores : M SeedState (list Json) :=
  console_log "A criar utilizadores..." [] ;;
  Model_deleteMany UserModel ;;
  adminPasswordHash ← gerarPasswordHash (Utf16.lit "admin123");
  userPasswordHash ← gerarPasswordHash (Utf16.lit "user123");
  let usersToCreate :=
    [JObj [("email", JStr (Utf16.lit "admin@conspira.local"));
           ("displayName", JStr (Utf16.lit "Administrador das Teorias"));
           ("passwordHash", JStr adminPasswordHash);
           ("role", JStr (Utf16.lit "admin"))];
     JObj [("email", JStr (Utf16.lit "user@conspira.local"));
           ("displayName", JStr (Utf16.lit "Curioso Anónimo"));
           ("passwordHash", JStr userPasswordHash);
           ("role", JStr (Utf16.lit "user"))]] in
  createdUsers ← Model_insertMany UserModel usersToCreate;
  console_log (pretty (length createdUsers) +:+ " utilizadores criados.") [] ;;
  mret createdUsers.


(** The callback of [teoriasBase.map]:
    [(t) => ({ ...t, slug: gerarSlug(t.title), comments: t.comments || [] })].
    Calling [gerarSlug] on a title that is not a string throws a
    [TypeError]. *)
Definition comSlug (t : Json) : M SeedState Json :=
  slug ← match Obj.prop t "title" with
         | Some (JStr title) =>
             mret (gerarSlug normalize_NFD toLowerCase title)
         | _ => throw (title_error t)
         end;
  let comments :=
    match Obj.prop t "comments" with
    | Some c => if Obj.truthy c then c else JArr []
    | None => JArr []
    end in
  mret (JObj (Obj.define "comments" comments
                (Obj.define "slug" (JStr slug) (Obj.spread t)))).

(** [items.map(f)], for a callback that may throw. *)
Fixpoint mapM {A B} (f : A → M SeedState B) (items : list A)
  : M SeedState (list B) :=
  match items with
  | [] => mret []
  | x :: rest => y ← f x; ys ← mapM f rest; mret (y :: ys)
  end.

Definition criarTeorias : M SeedState (list Json) :=
  console_log "A criar teorias da conspiração..." [] ;;
  Model_deleteMany TheoryModel ;;
  teoriasParaCriar ← mapM comSlug teoriasBase;
  createdTheories ← Model_insertMany TheoryModel teoriasParaCriar;
  console_log (pretty (length createdTheories) +:+ " teorias criadas.") [] ;;
  mret createdTheories.

(** The line feed that starts one of the messages. *)
Definition lf : string := String (Ascii.ascii_of_nat 10) EmptyString.

Definition runSeed : M SeedState unit :=
  try_finally
    (try_catch
       (console_log "A iniciar script de seed..." [] ;;
        with_env (connectToDatabase (mongo_answer backend)) ;;
        users ← criarUtilizadores;
        theories ← criarTeorias;
        console_log "Seed concluído com sucesso!" [] ;;
        console_log "Utilizadores criados:" [] ;;
        forEach users (λ u,
          console_log (" - " +:+ Obj.interpolate u "displayName" +:+ " <"
                       +:+ Obj.interpolate u "email" +:+ "> (role: "
                       +:+ Obj.interpolate u "role" +:+ ")") []) ;;
        console_log (lf +:+ "Teorias criadas (títulos):") [] ;;
        forEach theories (λ t,
          console_log (" - " +:+ Obj.interpolate t "title" +:+ " ["
                       +:+ Obj.interpolate t "complexityLevel" +:+ "]") []))
       (λ error, console_error "Erro durante o seed:" error))
    (mongoose_disconnect ;;
     console_log "Ligação ao MongoDB fechada." []).

End Seed.

(** *** Reading the script's journal *)

(** What [comSlug] returns for a theory whose title is a string. *)
Definition comSlug_value (normalize_NFD toLowerCase : CodeUnits → CodeUnits)
  (t : Json) : option Json :=
  match Obj.prop t "title" with
  | Some (JStr title) =>
      Some (JObj
              (Obj.define "comments"
                 match Obj.prop t "comments" with
                 | Some c => if Obj.truthy c then c else JArr []
                 | None => JArr []
                 end
                 (Obj.define "slug"
                    (JStr (gerarSlug normalize_NFD toLowerCase title))
                    (Obj.spread t))))
  | _ => None
  end.

(** Whether a value is an object whose [title] is a string. *)
Definition has_title (t : Json) : bool :=
  match Obj.prop t "title" with
  | Some (JStr _) => true
  | _ => false
  end.

(** The two user documents, over the two password hashes. *)
Definition seed_users (adminPasswordHash userPasswordHash : CodeUnits)
  : list Json :=
  [JObj [("email", JStr (Utf16.lit "admin@conspira.local"));
         ("displayName", JStr (Utf16.lit "Administrador das Teorias"));
         ("passwordHash", JStr adminPasswordHash);
         ("role", JStr (Utf16.lit "admin"))];
   JObj [("email", JStr (Utf16.lit "user@conspira.local"));
         ("displayName", JStr (Utf16.lit "Curioso Anónimo"));
         ("passwordHash", JStr userPasswordHash);
         ("role", JStr (Utf16.lit "user"))]].

(** A call without its arguments. *)
Inductive Kind := KDelete (m : Model) | KInsert (m : Model) | KHash | KClose.

Definition kind (c : Call) : Kind :=
  match c with
  | DeleteMany m => KDelete m
  | InsertMany m _ => KInsert m
  | Hash _ _ => KHash
  | Disconnect => KClose
  end.

(** The calls of a seed run in which nothing rejects, before the closing
    [mongoose.disconnect()]. *)
Definition seed_plan : list Kind :=
  [KDelete UserModel; KHash; KHash; KInsert UserModel;
   KDelete TheoryModel; KInsert TheoryModel].

(** Whether the script's connection attempt returns normally, read off the
    environment and the backend. *)
Definition seed_connects (backend : Backend) (env : Env) : bool :=
  match connectToDatabase (mongo_answer backend) env with
  | (Ok _, _, _) => true
  | _ => false
  end.

(** Whether every code unit is below U+0100. *)
Definition is_latin1 (s : CodeUnits) : bool :=
  forallb (λ u, u <? 256)%N s.

(** The string under [title], and the string under [slug]. *)
Definition title_of (j : Json) : option CodeUnits :=
  match Obj.prop j "title" with
  | Some (JStr title) => Some title
  | _ => None
  end.

Definition slug_of (j : Json) : option CodeUnits :=
  match Obj.prop j "slug" with
  | Some (JStr slug) => Some slug
  | _ => None
  end.

(** Whether [comments] is an array or absent. *)
Definition comments_listed (j : Json) : bool :=
  match Obj.prop j "comments" with
  | Some (JArr _) | None => true
  | _ => false
  end.

(** The property names of an object. *)
Definition Obj_keys (j : Json) : list string :=
  match j with
  | JObj props => props.*1
  | _ => []
  end.


(** A backend whose store rejects every write, and even the
    disconnect. *)
Definition backend_down : Backend :=
  mkBackend (λ _ _, None)
    (λ _ plain _, inl (Utf16.lit "$2b$" ++ plain)%list)
    (λ _ _, inr (VError "ECONNRESET"))
    (λ _ _ _, inr (VError "ECONNRESET"))
    (λ _, inr (VError "ECONNRESET")).

(** ** Property bags *)

Arguments get : simpl never.
Arguments set : simpl never.
Arguments getenv : simpl never.

Section Bags.
Implicit Types (o : Bag) (k : string) (v : Val).

Lemma get_absent o k : o !! k = None → get o k = VUndefined.
Proof. intros H. unfold get. by rewrite H. Qed.

Lemma get_set_eq o k v : get (set o k v) k = v.
Proof. unfold get, set. by rewrite lookup_insert_eq. Qed.

Lemma get_set_ne o k k' v : k ≠ k' → get (set o k v) k' = get o k'.
Proof. intros H. unfold get, set. by rewrite lookup_insert_ne. Qed.

Lemma set_set_eq o k v v' : set (set o k v) k v' = set o k v'.
Proof. unfold set. apply insert_insert_eq. Qed.

Lemma clear_identity_userId o : get (clear_identity o) "userId" = VUndefined.
Proof.
  unfold clear_identity. rewrite get_set_ne by discriminate.
  apply get_set_eq.
Qed.

Lemma clear_identity_role o : get (clear_identity o) "role" = VUndefined.
Proof. unfold clear_identity. apply get_set_eq. Qed.

Lemma clear_identity_other o k :
  k ≠ "userId" → k ≠ "role" → get (clear_identity o) k = get o k.
Proof.
  intros Hu Hr. unfold clear_identity.
  rewrite !get_set_ne; [done | congruence | congruence].
Qed.

Lemma clear_identity_idemp o :
  clear_identity (clear_identity o) = clear_identity o.
Proof.
  unfold clear_identity, set.
  rewrite (insert_insert_ne _ "userId" "role") by discriminate.
  by rewrite !insert_insert_eq.
Qed.

End Bags.

(** ** Running the middlewares *)

Ltac run :=
  unfold mbind, mret, M_bind, M_ret, try_catch, session_get, session_set,
    locals_set, res_redirect, next, console_error, console_log, env_get,
    emit, gets, modify, throw, process_exit; cbn.

(** The gate decides on the truthiness of the reference alone. *)
Lemma exigirAutenticacao_run c :
  exigirAutenticacao c =
  (Ok tt, c, [if Js.not (userId_of c) then EvRedirect "/login" else EvNext]).
Proof.
  unfold exigirAutenticacao, userId_of. run.
  by destruct (Js.not _).
Qed.

(** The enricher, path by path. *)
Lemma anexarUtilizadorAsViews_run db c :
  anexarUtilizadorAsViews db c =
  let l0 := set (locals c) "currentUser" VNull in
  let uid := userId_of c in
  if Js.not uid then (Ok tt, mkCtx (session c) l0, [EvNext])
  else
    match db uid with
    | Found user =>
        (Ok tt,
         mkCtx (session c)
           (set l0 "currentUser"
              (VObj [("id", VStr (ObjectId_toString (_id user)));
                     ("displayName", get (fields user) "displayName");
                     ("email", get (fields user) "email");
                     ("role", get (fields user) "role")])),
         [EvFindById uid; EvNext])
    | NotFound =>
        (Ok tt, mkCtx (clear_identity (session c)) l0,
         [EvFindById uid; EvNext])
    | Failure e =>
        (Ok tt, mkCtx (session c) (set l0 "currentUser" VNull),
         [EvFindById uid;
          EvConsoleError "Erro ao carregar utilizador da sessão:" e;
          EvNext])
    end.
Proof.
  unfold anexarUtilizadorAsViews, User_findById, userId_of. run.
  destruct (Js.not _); [done |].
  by destruct (db _).
Qed.

(** Scenario B end to end: the enricher finds Ana, then the gate passes. *)
Example scenario_B_events :
  (anexarUtilizadorAsViews db_ana ;; exigirAutenticacao)
    (fresh {[ "userId" := VStr "U1" ]})
  = (Ok tt,
     mkCtx {[ "userId" := VStr "U1" ]}
       {[ "currentUser" :=
            VObj [("id", VStr "U1"); ("displayName", VStr "Ana");
                  ("email", VStr "ana@x.com"); ("role", VStr "user")] ]},
     [EvFindById (VStr "U1"); EvNext; EvNext]).
Proof. vm_compute. reflexivity. Qed.

(** Scenario C end to end: the enricher clears the stale reference, then
    the gate redirects. *)
Example scenario_C_events :
  (anexarUtilizadorAsViews db_ana ;; exigirAutenticacao)
    (fresh {[ "userId" := VStr "U9" ]})
  = (Ok tt,
     mkCtx {[ "userId" := VUndefined; "role" := VUndefined ]}
       {[ "currentUser" := VNull ]},
     [EvFindById (VStr "U9"); EvNext; EvRedirect "/login"]).
Proof. vm_compute. reflexivity. Qed.

(** [index.js] as it stands: with the variable set the helper returns
    without connecting, and the unbound [app] ends the start-up. *)
Example startServer_app_unbound :
  startServer false {[ "MONGODB_URL" := "mongodb://localhost" ]}
  = (Halted 1, {[ "MONGODB_URL" := "mongodb://localhost" ]},
     [EvConsoleError "Erro Critico ao arrancar o servidor"
        (VError "app is not defined")]).
Proof. vm_compute. reflexivity. Qed.

(** The sibling revisions together: connect, then listen on the default
    port. *)
Example startServer_sibling_listens :
  startServer_with (connectToDatabase (λ _ _, None)) true
    {[ "MONGODB_URI" := "mongodb://localhost" ]}
  = (Ok tt, {[ "MONGODB_URI" := "mongodb://localhost" ]},
     [EvConnect (VStr "mongodb://localhost") (VStr "ficha5_conspirações");
      EvConsoleLog "Ligação ao mongo foi feita" [];
      EvListen (VNum 3000)]).
Proof. vm_compute. reflexivity. Qed.

(** ** The authentication gate *)

(** C1. When [req.session.userId] is absent, [exigirAutenticacao] returns
    normally, leaves the request state as it was and emits exactly one
    event, the redirect to ["/login"]: [next()] is not called and the
    credential store is not touched. *)
Theorem gate_redirects_when_reference_absent (c : Ctx) :
  session c !! "userId" = None →
  ∃ evs,
    exigirAutenticacao c = (Ok tt, c, evs) ∧
    evs = [EvRedirect "/login"] ∧
    next_calls evs = 0 ∧
    store_calls evs = [].
Proof.
  intros Habs. eexists. rewrite exigirAutenticacao_run.
  unfold userId_of. rewrite (get_absent _ _ Habs). cbn. done.
Qed.

(** Scenario A: the empty session [{}] on a protected route. *)
Lemma gate_redirects_on_empty_session :
  fresh ∅ = mkCtx ∅ ∅ ∧
  ∃ evs,
    exigirAutenticacao (fresh ∅) = (Ok tt, fresh ∅, evs) ∧
    evs = [EvRedirect "/login"] ∧
    next_calls evs = 0 ∧
    store_calls evs = [].
Proof.
  split; [reflexivity |].
  apply (gate_redirects_when_reference_absent (fresh ∅)). reflexivity.
Defined.

(** C2. When [req.session.userId] is present (truthy, the test the code
    makes), [exigirAutenticacao] calls [next()] and does nothing else: the
    request state is untouched and no store call is made, so whether the
    referenced identity still exists plays no part. *)
Theorem gate_passes_when_reference_present (c : Ctx) :
  ToBoolean (userId_of c) = true →
  ∃ evs,
    exigirAutenticacao c = (Ok tt, c, evs) ∧
    evs = [EvNext] ∧
    store_calls evs = [].
Proof.
  intros Ht. eexists. rewrite exigirAutenticacao_run.
  unfold Js.not. rewrite Ht. cbn. done.
Qed.

(** A stale reference ["U9"], unknown to the store, still passes the gate. *)
Lemma gate_passes_stale_reference :
  ToBoolean (userId_of (fresh {[ "userId" := VStr "U9" ]})) = true ∧
  db_ana (VStr "U9") = NotFound ∧
  ∃ evs,
    exigirAutenticacao (fresh {[ "userId" := VStr "U9" ]})
      = (Ok tt, fresh {[ "userId" := VStr "U9" ]}, evs) ∧
    evs = [EvNext] ∧
    store_calls evs = [].
Proof.
  split; [reflexivity |]. split; [reflexivity |].
  apply (gate_passes_when_reference_present
           (fresh {[ "userId" := VStr "U9" ]})).
  reflexivity.
Defined.

(** C7. On every request [exigirAutenticacao] returns normally with
    [req.session] and [res.locals] exactly as they were, emits a single
    event, which is the redirect to ["/login"] on the negative path and
    [next()] otherwise, and never reaches the store. *)
Theorem gate_only_decides (c : Ctx) :
  ∃ ev,
    exigirAutenticacao c = (Ok tt, c, [ev]) ∧
    ev = (if Js.not (userId_of c) then EvRedirect "/login" else EvNext) ∧
    store_calls [ev] = [] ∧
    responses [ev] = (if Js.not (userId_of c) then [EvRedirect "/login"] else []).
Proof.
  eexists. rewrite exigirAutenticacao_run.
  split; [reflexivity |]. split; [reflexivity |].
  by destruct (Js.not _).
Qed.

(** ** The view-context enricher *)

(** C3. When the reference is present and [User.findById] resolves to a
    document, [anexarUtilizadorAsViews] leaves in [res.locals.currentUser]
    an object with exactly the properties [id], [displayName], [email],
    [role], in that order, holding the stringified [_id] and the document's
    three fields; [passwordHash] is not among its properties, whatever
    else the document carries. *)
Theorem enricher_projects_four_fields (db : Store) (c : Ctx) (user : UserDoc) :
  ToBoolean (userId_of c) = true →
  db (userId_of c) = Found user →
  ∃ c' evs,
    anexarUtilizadorAsViews db c = (Ok tt, c', evs) ∧
    currentUser_of c' =
      VObj [("id", VStr (ObjectId_toString (_id user)));
            ("displayName", get (fields user) "displayName");
            ("email", get (fields user) "email");
            ("role", get (fields user) "role")] ∧
    Js.keys (currentUser_of c') = ["id"; "displayName"; "email"; "role"] ∧
    ("passwordHash" ∉ Js.keys (currentUser_of c')) ∧
    Js.prop (currentUser_of c') "passwordHash" = VUndefined.
Proof.
  intros Ht Hdb. do 2 eexists.
  rewrite anexarUtilizadorAsViews_run. cbn zeta.
  unfold Js.not. rewrite Ht, Hdb. cbn [negb].
  split; [reflexivity |].
  unfold currentUser_of. cbn [locals]. rewrite get_set_eq.
  repeat split; try reflexivity.
  cbn. rewrite !list_elem_of_In. cbn. intuition discriminate.
Qed.

(** Scenario B: session [{userId: "U1"}], and ["U1"] is Ana. *)
Lemma enricher_projects_ana :
  ToBoolean (userId_of (fresh {[ "userId" := VStr "U1" ]})) = true ∧
  db_ana (userId_of (fresh {[ "userId" := VStr "U1" ]})) = Found ana ∧
  ∃ c' evs,
    anexarUtilizadorAsViews db_ana (fresh {[ "userId" := VStr "U1" ]})
      = (Ok tt, c', evs) ∧
    currentUser_of c' =
      VObj [("id", VStr "U1"); ("displayName", VStr "Ana");
            ("email", VStr "ana@x.com"); ("role", VStr "user")].
Proof.
  split; [reflexivity |]. split; [reflexivity |].
  destruct (enricher_projects_four_fields db_ana
              (fresh {[ "userId" := VStr "U1" ]}) ana)
    as (c' & evs & Hrun & Hview & _); [reflexivity | reflexivity |].
  exists c', evs. split; [exact Hrun |]. rewrite Hview. reflexivity.
Defined.

(** C4. When the reference is present and [User.findById] resolves to
    nothing, [anexarUtilizadorAsViews] sets [req.session.userId] and
    [req.session.role] to [undefined], leaves [res.locals.currentUser] at
    [null] and calls [next()]; run again on the session it left, against
    any store, it takes the no-reference path: no store call, and the
    request state stays as it is. *)
Theorem enricher_heals_stale_reference (db : Store) (c : Ctx) :
  ToBoolean (userId_of c) = true →
  db (userId_of c) = NotFound →
  ∃ c',
    anexarUtilizadorAsViews db c
      = (Ok tt, c', [EvFindById (userId_of c); EvNext]) ∧
    session c' = clear_identity (session c) ∧
    get (session c') "userId" = VUndefined ∧
    get (session c') "role" = VUndefined ∧
    currentUser_of c' = VNull ∧
    (∀ db' : Store,
       anexarUtilizadorAsViews db' c' = (Ok tt, c', [EvNext]) ∧
       store_calls [EvNext] = []).
Proof.
  intros Ht Hdb. eexists.
  rewrite anexarUtilizadorAsViews_run. cbn zeta.
  unfold Js.not. rewrite Ht, Hdb. cbn [negb].
  split; [reflexivity |]. cbn [session locals].
  split; [reflexivity |].
  split; [apply clear_identity_userId |].
  split; [apply clear_identity_role |].
  split; [apply get_set_eq |].
  intros db'. split; [| reflexivity].
  rewrite anexarUtilizadorAsViews_run. cbn zeta.
  unfold userId_of. cbn [session locals].
  rewrite clear_identity_userId. cbn. by rewrite set_set_eq.
Qed.

(** Scenario C: session [{userId: "U9", role: "admin"}], and nobody is
    ["U9"]. *)
Lemma enricher_heals_U9 :
  ToBoolean (userId_of (fresh {[ "userId" := VStr "U9";
                                 "role" := VStr "admin" ]})) = true ∧
  ∃ c',
    anexarUtilizadorAsViews db_ana
      (fresh {[ "userId" := VStr "U9"; "role" := VStr "admin" ]})
      = (Ok tt, c', [EvFindById (VStr "U9"); EvNext]) ∧
    get (session c') "userId" = VUndefined ∧
    get (session c') "role" = VUndefined ∧
    currentUser_of c' = VNull ∧
    anexarUtilizadorAsViews db_ana c' = (Ok tt, c', [EvNext]).
Proof.
  split; [reflexivity |].
  destruct (enricher_heals_stale_reference db_ana
              (fresh {[ "userId" := VStr "U9"; "role" := VStr "admin" ]}))
    as (c' & Hrun & _ & Hu & Hr & Hcur & Hagain);
    [reflexivity | reflexivity |].
  exists c'. repeat split; try assumption. apply (Hagain db_ana).
Defined.

(** The enricher returns normally on every path, having called [next()]
    once, as its last act, and having answered nothing itself. *)
Lemma anexarUtilizadorAsViews_total db c :
  ∃ c' evs,
    anexarUtilizadorAsViews db c = (Ok tt, c', evs) ∧
    last evs = Some EvNext ∧
    next_calls evs = 1 ∧
    responses evs = [].
Proof.
  rewrite anexarUtilizadorAsViews_run. cbn zeta.
  destruct (Js.not _); [by do 2 eexists |].
  destruct (db _); by do 2 eexists.
Qed.

(** C5. On every request, with every store, [anexarUtilizadorAsViews]
    returns normally (nothing is thrown past it, the process is not
    halted), answers nothing itself and calls [next()] exactly once, last.
    When [User.findById] rejects, the error is logged and
    [res.locals.currentUser] is [null]. *)
Theorem enricher_fails_open (db : Store) (c : Ctx) :
  ∃ c' evs,
    anexarUtilizadorAsViews db c = (Ok tt, c', evs) ∧
    last evs = Some EvNext ∧
    next_calls evs = 1 ∧
    responses evs = [] ∧
    (∀ e,
       ToBoolean (userId_of c) = true →
       db (userId_of c) = Failure e →
       currentUser_of c' = VNull ∧
       evs = [EvFindById (userId_of c);
              EvConsoleError "Erro ao carregar utilizador da sessão:" e;
              EvNext]).
Proof.
  destruct (anexarUtilizadorAsViews_total db c)
    as (c' & evs & Hrun & Hlast & Hnext & Hresp).
  exists c', evs. do 4 (split; [assumption |]).
  intros e Ht Hdb.
  rewrite anexarUtilizadorAsViews_run in Hrun. cbn zeta in Hrun.
  unfold Js.not in Hrun. rewrite Ht, Hdb in Hrun. cbn [negb] in Hrun.
  injection Hrun as <- <-. split; [| reflexivity].
  unfold currentUser_of. cbn [locals]. apply get_set_eq.
Qed.

(** A logged-in request while the store is down renders as anonymous. *)
Lemma enricher_fails_open_when_store_down :
  ∃ c',
    anexarUtilizadorAsViews db_down (fresh {[ "userId" := VStr "U1" ]})
      = (Ok tt, c',
         [EvFindById (VStr "U1");
          EvConsoleError "Erro ao carregar utilizador da sessão:"
            (VError "ECONNREFUSED");
          EvNext]) ∧
    currentUser_of c' = VNull.
Proof.
  destruct (enricher_fails_open db_down (fresh {[ "userId" := VStr "U1" ]}))
    as (c' & evs & Hrun & _ & _ & _ & Hfail).
  destruct (Hfail (VError "ECONNREFUSED")) as [Hcur Hevs];
    [reflexivity | reflexivity |].
  exists c'. split; [| exact Hcur]. rewrite Hrun, Hevs. reflexivity.
Defined.

(** C9. When the reference is present and [User.findById] rejects,
    [anexarUtilizadorAsViews] leaves [req.session] as it found it:
    [userId] and [role] keep their values. *)
Theorem enricher_keeps_session_on_store_error
  (db : Store) (c : Ctx) (e : Val) :
  ToBoolean (userId_of c) = true →
  db (userId_of c) = Failure e →
  ∃ c' evs,
    anexarUtilizadorAsViews db c = (Ok tt, c', evs) ∧
    session c' = session c ∧
    get (session c') "userId" = get (session c) "userId" ∧
    get (session c') "role" = get (session c) "role".
Proof.
  intros Ht Hdb. do 2 eexists.
  rewrite anexarUtilizadorAsViews_run. cbn zeta.
  unfold Js.not. rewrite Ht, Hdb. cbn [negb]. done.
Qed.

(** An outage does not log the administrator out. *)
Lemma enricher_keeps_admin_session_when_store_down :
  ∃ c' evs,
    anexarUtilizadorAsViews db_down
      (fresh {[ "userId" := VStr "U1"; "role" := VStr "admin" ]})
      = (Ok tt, c', evs) ∧
    get (session c') "userId" = VStr "U1" ∧
    get (session c') "role" = VStr "admin".
Proof.
  destruct (enricher_keeps_session_on_store_error db_down
              (fresh {[ "userId" := VStr "U1"; "role" := VStr "admin" ]})
              (VError "ECONNREFUSED"))
    as (c' & evs & Hrun & _ & Hu & Hr); [reflexivity | reflexivity |].
  exists c', evs. split; [exact Hrun |].
  rewrite Hu, Hr. split; reflexivity.
Defined.

Lemma falsy_samples_falsy : Forall (λ v, ToBoolean v = false) falsy_samples.
Proof. repeat constructor. Qed.

Lemma clear_identity_noop_when_empty (s : Bag) :
  get s "userId" = VUndefined →
  get s "role" = VUndefined →
  ∀ k, get (clear_identity s) k = get s k.
Proof.
  intros Hu Hr k.
  destruct (decide (k = "userId")) as [-> | Hku].
  { by rewrite clear_identity_userId. }
  destruct (decide (k = "role")) as [-> | Hkr].
  { by rewrite clear_identity_role. }
  by apply clear_identity_other.
Qed.

(** A second run of the enricher, against the same store, on the request
    state the first run left, changes nothing. *)
Lemma anexarUtilizadorAsViews_settles db c c1 evs1 :
  anexarUtilizadorAsViews db c = (Ok tt, c1, evs1) →
  ∃ evs2, anexarUtilizadorAsViews db c1 = (Ok tt, c1, evs2).
Proof.
  rewrite !anexarUtilizadorAsViews_run. cbn zeta.
  destruct (Js.not (userId_of c)) eqn:Hnot.
  - intros [= <- _]. unfold userId_of in *. cbn [session locals].
    rewrite Hnot, set_set_eq. by eexists.
  - destruct (db (userId_of c)) as [user | | e] eqn:Hdb; intros [= <- _];
      unfold userId_of in *; cbn [session locals].
    + rewrite Hnot, Hdb, !set_set_eq. by eexists.
    + rewrite clear_identity_userId. cbn. rewrite set_set_eq. by eexists.
    + rewrite Hnot, Hdb, !set_set_eq. by eexists.
Qed.

(** C6. Run twice in sequence against the same store,
    [anexarUtilizadorAsViews] leaves the same [res.locals.currentUser] both
    times, and the second run leaves the whole request state as the first
    left it. When the first run resolved to no identity (no reference, or a
    reference the store does not know), the second run makes no store call.
    Clearing a session twice is the same as clearing it once, and clearing
    a session whose [userId] and [role] already read [undefined] changes no
    property read. *)
Theorem enricher_idempotent (db : Store) (c : Ctx) (s : Bag) :
  ∃ c1 c2 evs1 evs2,
    anexarUtilizadorAsViews db c = (Ok tt, c1, evs1) ∧
    anexarUtilizadorAsViews db c1 = (Ok tt, c2, evs2) ∧
    currentUser_of c2 = currentUser_of c1 ∧
    c2 = c1 ∧
    ((ToBoolean (userId_of c) = false ∨ db (userId_of c) = NotFound) →
     currentUser_of c1 = VNull ∧ evs2 = [EvNext] ∧ store_calls evs2 = []) ∧
    clear_identity (clear_identity s) = clear_identity s ∧
    (get s "userId" = VUndefined →
     get s "role" = VUndefined →
     ∀ k, get (clear_identity s) k = get s k).
Proof.
  destruct (anexarUtilizadorAsViews_total db c) as (c1 & evs1 & Hrun1 & _).
  destruct (anexarUtilizadorAsViews_settles db c c1 evs1 Hrun1)
    as (evs2 & Hrun2).
  exists c1, c1, evs1, evs2.
  do 4 (split; [done |]).
  split; [| split; [apply clear_identity_idemp
                   | apply clear_identity_noop_when_empty]].
  intros Hnone.
  rewrite anexarUtilizadorAsViews_run in Hrun1. cbn zeta in Hrun1.
  rewrite anexarUtilizadorAsViews_run in Hrun2. cbn zeta in Hrun2.
  unfold Js.not in Hrun1.
  destruct (ToBoolean (userId_of c)) eqn:Ht; cbn [negb] in Hrun1.
  - destruct Hnone as [? | Hdb]; [done |]. rewrite Hdb in Hrun1.
    injection Hrun1 as <- _.
    unfold userId_of, currentUser_of in *. cbn [session locals] in *.
    rewrite clear_identity_userId in Hrun2. cbn in Hrun2.
    injection Hrun2 as _ <-. by rewrite get_set_eq.
  - injection Hrun1 as <- _.
    unfold Js.not, userId_of, currentUser_of in *.
    cbn [session locals] in *. rewrite Ht in Hrun2. cbn in Hrun2.
    injection Hrun2 as _ <-. by rewrite get_set_eq.
Qed.

(** Two runs on the stale session [{userId: "U9"}]: one lookup in all; and
    clearing the session [{cart: 3}], which holds no reference, changes no
    read. *)
Lemma enricher_idempotent_on_stale_session :
  (∃ c1 evs1,
     anexarUtilizadorAsViews db_empty (fresh {[ "userId" := VStr "U9" ]})
       = (Ok tt, c1, evs1) ∧
     anexarUtilizadorAsViews db_empty c1 = (Ok tt, c1, [EvNext]) ∧
     currentUser_of c1 = VNull) ∧
  (∀ k, get (clear_identity {[ "cart" := VNum 3 ]}) k
        = get ({[ "cart" := VNum 3 ]} : Bag) k).
Proof.
  destruct (enricher_idempotent db_empty (fresh {[ "userId" := VStr "U9" ]})
              {[ "cart" := VNum 3 ]})
    as (c1 & c2 & evs1 & evs2 & Hrun1 & Hrun2 & _ & -> & Hnone & _ & Hnoop).
  destruct Hnone as (Hcur & -> & _); [right; reflexivity |].
  split; [by exists c1, evs1 |].
  apply Hnoop; reflexivity.
Defined.

(** After a store error the reference is still there, so the next run
    asks the store again. *)
Lemma anexarUtilizadorAsViews_retries_after_error db c e :
  ToBoolean (userId_of c) = true →
  db (userId_of c) = Failure e →
  ∃ c1 evs1 evs2,
    anexarUtilizadorAsViews db c = (Ok tt, c1, evs1) ∧
    anexarUtilizadorAsViews db c1 = (Ok tt, c1, evs2) ∧
    store_calls evs2 = [EvFindById (userId_of c)].
Proof.
  intros Ht Hdb.
  destruct (anexarUtilizadorAsViews_total db c) as (c1 & evs1 & Hrun1 & _).
  destruct (anexarUtilizadorAsViews_settles db c c1 evs1 Hrun1)
    as (evs2 & Hrun2).
  exists c1, evs1, evs2. do 2 (split; [done |]).
  rewrite anexarUtilizadorAsViews_run in Hrun1, Hrun2.
  cbn zeta in Hrun1, Hrun2. unfold Js.not in *.
  rewrite Ht, Hdb in Hrun1. cbn [negb] in Hrun1. injection Hrun1 as <- _.
  unfold userId_of in *. cbn [session locals] in Hrun2.
  rewrite Ht, Hdb in Hrun2. cbn [negb] in Hrun2.
  by injection Hrun2 as _ <-.
Qed.

(** C10. When [req.session.userId] is falsy (the empty string, [0], [-0],
    [NaN], [null], [undefined], [false], which all are), the gate redirects
    to ["/login"] without calling [next()], and the enricher calls [next()]
    with [res.locals.currentUser] at [null], the session untouched and no
    store call made. *)
Theorem falsy_reference_is_anonymous (db : Store) (c : Ctx) :
  ToBoolean (userId_of c) = false ∨ userId_of c ∈ falsy_samples →
  exigirAutenticacao c = (Ok tt, c, [EvRedirect "/login"]) ∧
  ∃ c',
    anexarUtilizadorAsViews db c = (Ok tt, c', [EvNext]) ∧
    session c' = session c ∧
    currentUser_of c' = VNull ∧
    store_calls [EvNext] = [].
Proof.
  intros Hfalsy.
  assert (Hf : ToBoolean (userId_of c) = false).
  { destruct Hfalsy as [? | Hin]; [done |].
    by apply (proj1 (Forall_forall _ _) falsy_samples_falsy). }
  split.
  - rewrite exigirAutenticacao_run. unfold Js.not. by rewrite Hf.
  - eexists. rewrite anexarUtilizadorAsViews_run. cbn zeta.
    unfold Js.not. rewrite Hf. cbn [negb].
    split; [reflexivity |]. split; [reflexivity |].
    split; [apply get_set_eq | reflexivity].
Qed.

(** A session holding the number [0] under [userId] is anonymous, even
    against a store that would find Ana for any other reference. *)
Lemma zero_reference_is_anonymous :
  exigirAutenticacao (fresh {[ "userId" := VNum 0 ]})
    = (Ok tt, fresh {[ "userId" := VNum 0 ]}, [EvRedirect "/login"]) ∧
  ∃ c',
    anexarUtilizadorAsViews db_ana (fresh {[ "userId" := VNum 0 ]})
      = (Ok tt, c', [EvNext]) ∧
    currentUser_of c' = VNull.
Proof.
  destruct (falsy_reference_is_anonymous db_ana
              (fresh {[ "userId" := VNum 0 ]}))
    as (Hgate & c' & Hrun & _ & Hcur & _); [left; reflexivity |].
  split; [exact Hgate |]. by exists c'.
Defined.

(** ** Start-up *)

Lemma getenv_unset (env : Env) k : env !! k = None → getenv env k = VUndefined.
Proof. intros H. unfold getenv. by rewrite H. Qed.

(** [startServer] turns a throwing connection helper into exit code 1,
    before it evaluates [app.listen]. *)
Lemma startServer_with_thrown connect app_bound (env env' : Env) e evs :
  connect env = (Thrown e, env', evs) →
  startServer_with connect app_bound env =
  (Halted 1, env',
   evs ++ [EvConsoleError "Erro Critico ao arrancar o servidor" e])%list.
Proof.
  intros Hc. unfold startServer_with. run. by rewrite Hc.
Qed.

Lemma connectToDataBase_unset (env : Env) :
  env !! "MONGODB_URL" = None →
  connectToDataBase env = (Thrown missing_uri_error, env, []).
Proof.
  intros H. unfold connectToDataBase. run.
  by rewrite (getenv_unset _ _ H).
Qed.

Lemma connectToDatabase_unset mongo (env : Env) :
  env !! "MONGODB_URI" = None →
  connectToDatabase mongo env = (Thrown missing_uri_error, env, []).
Proof.
  intros H. unfold connectToDatabase. run.
  by rewrite (getenv_unset _ _ H).
Qed.

(** C8. When the connection-string variable a helper reads is not set
    ([MONGODB_URL] for [connectToDataBase], [MONGODB_URI] for its sibling
    [connectToDatabase]), the helper throws before any connection attempt,
    and [startServer] awaiting it logs the error and ends the process with
    exit code 1 without reaching [app.listen]. *)
Theorem startup_refuses_unconfigured_store
  (env : Env) (mongo : Mongo) (app_bound : bool) :
  (env !! "MONGODB_URL" = None →
   connectToDataBase env = (Thrown missing_uri_error, env, []) ∧
   ∃ evs,
     startServer app_bound env = (Halted 1, env, evs) ∧
     evs = [EvConsoleError "Erro Critico ao arrancar o servidor"
              missing_uri_error] ∧
     store_calls evs = [] ∧
     listens evs = []) ∧
  (env !! "MONGODB_URI" = None →
   connectToDatabase mongo env = (Thrown missing_uri_error, env, []) ∧
   ∃ evs,
     startServer_with (connectToDatabase mongo) app_bound env
       = (Halted 1, env, evs) ∧
     evs = [EvConsoleError "Erro Critico ao arrancar o servidor"
              missing_uri_error] ∧
     store_calls evs = [] ∧
     listens evs = []).
Proof.
  split; intros Hunset.
  - pose proof (connectToDataBase_unset env Hunset) as Hc.
    split; [exact Hc |]. eexists. unfold startServer.
    rewrite (startServer_with_thrown _ _ _ _ _ _ Hc). done.
  - pose proof (connectToDatabase_unset mongo env Hunset) as Hc.
    split; [exact Hc |]. eexists.
    rewrite (startServer_with_thrown _ _ _ _ _ _ Hc). done.
Qed.

(** With an empty environment neither revision connects or listens, even
    with [app] imported and a store that would accept the connection. *)
Lemma startup_with_empty_environment :
  startServer true ∅
    = (Halted 1, ∅,
       [EvConsoleError "Erro Critico ao arrancar o servidor"
          missing_uri_error]) ∧
  startServer_with (connectToDatabase (λ _ _, None)) true ∅
    = (Halted 1, ∅,
       [EvConsoleError "Erro Critico ao arrancar o servidor"
          missing_uri_error]).
Proof.
  destruct (startup_refuses_unconfigured_store ∅ (λ _ _, None) true)
    as [Hurl Huri].
  destruct Hurl as (_ & evs & Hrun & -> & _); [reflexivity |].
  destruct Huri as (_ & evs' & Hrun' & -> & _); [reflexivity |].
  split; assumption.
Defined.

(** ** More on the enricher and the gate *)

(** The enricher writes [userId] and [role] in the session and
    [currentUser] in the view context, and nothing else: every other
    property is there or not there, with the same value, as before. *)
Theorem enricher_frame (db : Store) (c : Ctx) :
  ∃ c' evs,
    anexarUtilizadorAsViews db c = (Ok tt, c', evs) ∧
    (∀ k, k ≠ "userId" → k ≠ "role" → session c' !! k = session c !! k) ∧
    (∀ k, k ≠ "currentUser" → locals c' !! k = locals c !! k).
Proof.
  rewrite anexarUtilizadorAsViews_run. cbn zeta. unfold clear_identity, set.
  destruct (Js.not _); [| destruct (db _)]; do 2 eexists;
    (split; [reflexivity |]); cbn [session locals];
    split; intros; by rewrite ?lookup_insert_ne by congruence.
Qed.

(** A session that carries a cart next to a stale reference keeps the
    cart. *)
Lemma enricher_frame_keeps_cart :
  ∃ c' evs,
    anexarUtilizadorAsViews db_empty
      (fresh {[ "userId" := VStr "U9"; "cart" := VNum 3 ]})
      = (Ok tt, c', evs) ∧
    session c' !! "cart" = Some (VNum 3).
Proof.
  destruct (enricher_frame db_empty
              (fresh {[ "userId" := VStr "U9"; "cart" := VNum 3 ]}))
    as (c' & evs & Hrun & Hs & _).
  exists c', evs. split; [exact Hrun |].
  rewrite Hs; [reflexivity | discriminate | discriminate].
Defined.

(** After the enricher [res.locals.currentUser] is always there, whatever
    it held before: either [null] or an object with the four public
    properties. *)
Theorem enricher_always_defines_currentUser (db : Store) (c : Ctx) :
  ∃ c' evs v,
    anexarUtilizadorAsViews db c = (Ok tt, c', evs) ∧
    locals c' !! "currentUser" = Some v ∧
    (v = VNull ∨ Js.keys v = ["id"; "displayName"; "email"; "role"]).
Proof.
  rewrite anexarUtilizadorAsViews_run. cbn zeta. unfold set.
  destruct (Js.not _); [| destruct (db _)]; do 3 eexists;
    (split; [reflexivity |]); cbn [locals];
    (split; [apply lookup_insert_eq |]); auto.
Qed.

(** The enricher asks the store at most once, for the session's own
    reference, and logs an error exactly when that lookup rejects. *)
Theorem enricher_single_lookup (db : Store) (c : Ctx) :
  ∃ c' evs,
    anexarUtilizadorAsViews db c = (Ok tt, c', evs) ∧
    store_calls evs =
      (if Js.not (userId_of c) then [] else [EvFindById (userId_of c)]) ∧
    (∀ msg e,
       EvConsoleError msg e ∈ evs ↔
       Js.not (userId_of c) = false ∧ db (userId_of c) = Failure e ∧
       msg = "Erro ao carregar utilizador da sessão:").
Proof.
  rewrite anexarUtilizadorAsViews_run. cbn zeta.
  destruct (Js.not _); [| destruct (db _) eqn:Hdb]; do 2 eexists;
    (split; [reflexivity |]); (split; [reflexivity |]);
    intros msg e'; rewrite list_elem_of_In; cbn; split;
    try (intros (? & ? & ?); discriminate);
    try (intros [? | [? | [? | []]]]; discriminate);
    try (intros [? | [? | []]]; discriminate);
    try (intros [? | []]; discriminate).
  - intros [? | [[= <- <-] | [? | []]]]; [discriminate | done | discriminate].
  - intros (_ & [= <-] & ->). auto.
Qed.



(** On a session whose reference the store does not know, the gate passes
    before the enricher has run and redirects after it: the healing is what
    closes the gate on a deleted user. *)
Theorem gate_closes_only_after_healing (db : Store) (c : Ctx) :
  ToBoolean (userId_of c) = true →
  db (userId_of c) = NotFound →
  ∃ c' evs,
    anexarUtilizadorAsViews db c = (Ok tt, c', evs) ∧
    exigirAutenticacao c = (Ok tt, c, [EvNext]) ∧
    exigirAutenticacao c' = (Ok tt, c', [EvRedirect "/login"]).
Proof.
  intros Ht Hdb. rewrite anexarUtilizadorAsViews_run. cbn zeta.
  unfold Js.not. rewrite Ht, Hdb. cbn [negb]. do 2 eexists.
  split; [reflexivity |]. rewrite !exigirAutenticacao_run.
  unfold Js.not, userId_of in *. cbn [session].
  by rewrite Ht, clear_identity_userId.
Qed.

Lemma gate_closes_on_U9_after_healing :
  ∃ c' evs,
    anexarUtilizadorAsViews db_ana (fresh {[ "userId" := VStr "U9" ]})
      = (Ok tt, c', evs) ∧
    exigirAutenticacao (fresh {[ "userId" := VStr "U9" ]})
      = (Ok tt, fresh {[ "userId" := VStr "U9" ]}, [EvNext]) ∧
    exigirAutenticacao c' = (Ok tt, c', [EvRedirect "/login"]).
Proof.
  apply (gate_closes_only_after_healing db_ana
           (fresh {[ "userId" := VStr "U9" ]})); reflexivity.
Defined.

(** ** More on the start-up *)

Lemma getenv_falsy (env : Env) k :
  Js.not (getenv env k) = true ↔ env !! k = None ∨ env !! k = Some "".
Proof.
  unfold getenv, Js.not. destruct (env !! k) as [s |]; cbn.
  - rewrite negb_involutive. split.
    + intros H%String.eqb_eq. right. by subst.
    + intros [? | [= ->]]; done.
  - split; auto.
Qed.

Lemma connectToDataBase_run (env : Env) :
  connectToDataBase env =
  if Js.not (getenv env "MONGODB_URL")
  then (Thrown missing_uri_error, env, [])
  else (Ok tt, env, []).
Proof. unfold connectToDataBase. run. by destruct (Js.not _). Qed.

Lemma connectToDatabase_run mongo (env : Env) :
  connectToDatabase mongo env =
  let uri := getenv env "MONGODB_URI" in
  let dbName :=
    Js.or (getenv env "MONGODB_DB_NAME") (VStr "ficha5_conspirações") in
  if Js.not uri then (Thrown missing_uri_error, env, [])
  else
    match mongo uri dbName with
    | None =>
        (Ok tt, env,
         [EvConnect uri dbName; EvConsoleLog "Ligação ao mongo foi feita" []])
    | Some e =>
        (Thrown e, env,
         [EvConnect uri dbName;
          EvConsoleLog "Erro ao ligar á base de dados" [e]])
    end.
Proof.
  unfold connectToDatabase, mongoose_connect. run.
  destruct (Js.not _); [done |]. by destruct (mongo _ _).
Qed.



(** A helper treats a variable set to the empty string like one that is
    not set: it throws exactly when the variable is absent or empty. *)
Theorem empty_connection_string_counts_as_unset (env : Env) (mongo : Mongo) :
  (connectToDataBase env = (Thrown missing_uri_error, env, []) ↔
   env !! "MONGODB_URL" = None ∨ env !! "MONGODB_URL" = Some "") ∧
  (connectToDatabase mongo env = (Thrown missing_uri_error, env, []) ↔
   env !! "MONGODB_URI" = None ∨ env !! "MONGODB_URI" = Some "").
Proof.
  rewrite connectToDataBase_run, connectToDatabase_run. cbn zeta.
  rewrite <- !getenv_falsy. split.
  - destruct (Js.not _); split; try done.
  - destruct (Js.not _); [done |].
    destruct (mongo _ _); split; done.
Qed.

(** With the import bound and [MONGODB_URL] set, [index.js] serves requests
    although no connection was ever attempted. *)
Lemma startServer_listens_unconnected :
  startServer true {[ "MONGODB_URL" := "mongodb://localhost" ]}
  = (Ok tt, {[ "MONGODB_URL" := "mongodb://localhost" ]},
     [EvListen (VNum 3000)]).
Proof. vm_compute. reflexivity. Qed.

(** With [MONGODB_URI] holding a non-empty string, [connectToDatabase]
    makes exactly one connection attempt, to that URI, and names the
    database after [MONGODB_DB_NAME], falling back to
    ["ficha5_conspirações"] when that variable is absent or empty. *)
Theorem connectToDatabase_picks_database
  (env : Env) (mongo : Mongo) (uri : string) :
  env !! "MONGODB_URI" = Some uri →
  uri ≠ "" →
  ∃ r evs,
    connectToDatabase mongo env = (r, env, evs) ∧
    store_calls evs =
      [EvConnect (VStr uri)
         (VStr match env !! "MONGODB_DB_NAME" with
               | Some name =>
                   if String.eqb name "" then "ficha5_conspirações" else name
               | None => "ficha5_conspirações"
               end)].
Proof.
  intros Huri Hne. rewrite connectToDatabase_run. cbn zeta.
  assert (Hu : getenv env "MONGODB_URI" = VStr uri).
  { unfold getenv. by rewrite Huri. }
  assert (Ht : Js.not (VStr uri) = false).
  { unfold Js.not. cbn. apply negb_false_iff, negb_true_iff.
    by apply String.eqb_neq. }
  rewrite Hu, Ht.
  assert (Hdb : Js.or (getenv env "MONGODB_DB_NAME")
                  (VStr "ficha5_conspirações")
                = VStr match env !! "MONGODB_DB_NAME" with
                       | Some name =>
                           if String.eqb name ""
                           then "ficha5_conspirações" else name
                       | None => "ficha5_conspirações"
                       end).
  { unfold getenv, Js.or. destruct (env !! "MONGODB_DB_NAME") as [n |]; cbn;
      [by destruct (String.eqb n "") | done]. }
  rewrite Hdb. destruct (mongo _ _); by do 2 eexists.
Qed.

(** A database name set to the empty string falls back to the default. *)
Lemma connectToDatabase_empty_name_falls_back :
  ∃ r evs,
    connectToDatabase (λ _ _, None)
      {[ "MONGODB_URI" := "mongodb://h"; "MONGODB_DB_NAME" := "" ]}
    = (r, {[ "MONGODB_URI" := "mongodb://h"; "MONGODB_DB_NAME" := "" ]}, evs) ∧
    store_calls evs =
      [EvConnect (VStr "mongodb://h") (VStr "ficha5_conspirações")].
Proof.
  destruct (connectToDatabase_picks_database
              {[ "MONGODB_URI" := "mongodb://h"; "MONGODB_DB_NAME" := "" ]}
              (λ _ _, None) "mongodb://h")
    as (r & evs & Hrun & Hcalls); [reflexivity | discriminate |].
  exists r, evs. split; [exact Hrun |]. rewrite Hcalls. reflexivity.
Defined.

(** When the connection attempt rejects, [connectToDatabase] logs the error
    and throws that same error on; [startServer] awaiting it then logs it
    again, ends the process with exit code 1 and does not listen. *)
Theorem connection_failure_stops_startup
  (env : Env) (mongo : Mongo) (app_bound : bool) (e : Val) :
  ToBoolean (getenv env "MONGODB_URI") = true →
  mongo (getenv env "MONGODB_URI")
        (Js.or (getenv env "MONGODB_DB_NAME") (VStr "ficha5_conspirações"))
    = Some e →
  ∃ evs,
    connectToDatabase mongo env = (Thrown e, env, evs) ∧
    last evs = Some (EvConsoleLog "Erro ao ligar á base de dados" [e]) ∧
    startServer_with (connectToDatabase mongo) app_bound env
      = (Halted 1, env,
         evs ++ [EvConsoleError "Erro Critico ao arrancar o servidor" e])%list ∧
    listens (evs ++ [EvConsoleError "Erro Critico ao arrancar o servidor" e])
      = [].
Proof.
  intros Ht Hm.
  pose proof (connectToDatabase_run mongo env) as Hc. cbn zeta in Hc.
  unfold Js.not in Hc. rewrite Ht, Hm in Hc. cbn [negb] in Hc.
  eexists. split; [exact Hc |]. split; [reflexivity |].
  by rewrite (startServer_with_thrown _ _ _ _ _ _ Hc).
Qed.

Lemma connection_refused_stops_startup :
  ∃ evs,
    startServer_with
      (connectToDatabase (λ _ _, Some (VError "ECONNREFUSED"))) true
      {[ "MONGODB_URI" := "mongodb://h" ]}
    = (Halted 1, {[ "MONGODB_URI" := "mongodb://h" ]}, evs) ∧
    listens evs = [].
Proof.
  destruct (connection_failure_stops_startup
              {[ "MONGODB_URI" := "mongodb://h" ]}
              (λ _ _, Some (VError "ECONNREFUSED")) true
              (VError "ECONNREFUSED"))
    as (evs & _ & _ & Hrun & Hl); [reflexivity | reflexivity |].
  eexists. split; [exact Hrun | exact Hl].
Defined.



(** [PORT] is the value of the variable [PORT] when it is set to a
    non-empty string, and the number [3000] otherwise; it is never
    falsy. *)
Theorem PORT_default (env : Env) :
  ∃ port,
    PORT env = (Ok port, env, []) ∧
    port = match env !! "PORT" with
           | Some p => if String.eqb p "" then VNum 3000 else VStr p
           | None => VNum 3000
           end ∧
    ToBoolean port = true.
Proof.
  unfold PORT. run. eexists. split; [reflexivity |].
  unfold getenv, Js.or. destruct (env !! "PORT") as [p |]; cbn.
  - destruct (String.eqb p "") eqn:Hp; cbn; [done |]. by rewrite Hp.
  - done.
Qed.

(** ** [gerarSlug] *)

Ltac unbool :=
  rewrite ?orb_true_iff, ?andb_true_iff, ?orb_false_iff, ?andb_false_iff,
    ?negb_true_iff, ?negb_false_iff, ?N.leb_le, ?N.leb_gt, ?N.eqb_eq,
    ?N.eqb_neq in *.

Section CodeUnitClasses.
Implicit Types (u : N) (s : CodeUnits).

Lemma slug_unit_not_mark u :
  is_slug_unit u = true → is_combining_mark u = false.
Proof.
  unfold is_slug_unit, is_combining_mark, is_lower_az, is_digit, is_hyphen,
    hyphen. unbool. lia.
Qed.

Lemma slug_unit_not_space u :
  is_slug_unit u = true → is_white_space u = false.
Proof.
  unfold is_slug_unit, is_white_space, is_lower_az, is_digit, is_hyphen,
    hyphen. unbool. lia.
Qed.

Lemma slug_unit_not_strange u :
  is_slug_unit u = true → is_strange u = false.
Proof.
  unfold is_strange, is_slug_unit.
  by destruct (is_lower_az u), (is_digit u), (is_white_space u),
    (is_hyphen u).
Qed.

Lemma kept_unit_is_slug_unit u :
  is_strange u = false → is_white_space u = false → is_slug_unit u = true.
Proof.
  unfold is_strange, is_slug_unit.
  by destruct (is_lower_az u), (is_digit u), (is_white_space u),
    (is_hyphen u).
Qed.

Lemma alnum_not_space u :
  is_lower_az u || is_digit u = true → is_white_space u = false.
Proof.
  unfold is_white_space, is_lower_az, is_digit. unbool. lia.
Qed.

Lemma alnum_not_hyphen u :
  is_lower_az u || is_digit u = true → is_hyphen u = false.
Proof.
  unfold is_hyphen, hyphen, is_lower_az, is_digit. unbool. lia.
Qed.

Lemma alnum_not_strange u :
  is_lower_az u || is_digit u = true → is_strange u = false.
Proof.
  unfold is_strange.
  by destruct (is_lower_az u), (is_digit u), (is_white_space u),
    (is_hyphen u).
Qed.

End CodeUnitClasses.

Section RegexReplace.
Variables (class : N → bool) (by_ : N).
Implicit Types (u : N) (s : CodeUnits).

Lemma remove_all_none s : Forall (λ u, class u = false) (remove_all class s).
Proof.
  apply List.Forall_forall. intros u [_ Hu]%List.filter_In.
  by apply negb_true_iff.
Qed.

Lemma remove_all_id s :
  Forall (λ u, class u = false) s → remove_all class s = s.
Proof.
  induction 1 as [| u s Hu _ IH]; [done |].
  unfold remove_all in *. cbn. by rewrite Hu, IH.
Qed.

Lemma remove_all_keeps u s :
  u ∈ s → class u = false → u ∈ remove_all class s.
Proof.
  rewrite !list_elem_of_In. intros Hin Hu. apply List.filter_In.
  by rewrite Hu.
Qed.

Lemma remove_all_sub u s : u ∈ remove_all class s → u ∈ s.
Proof. rewrite !list_elem_of_In. by intros [? _]%List.filter_In. Qed.

(** Where no run starts, nothing is replaced. *)
Lemma replace_runs_cons_out u s :
  class u = false →
  replace_runs class by_ (u :: s) = u :: replace_runs class by_ s.
Proof. intros Hu. cbn. by rewrite Hu. Qed.

(** Inside a run nothing is emitted. *)
Lemma replace_runs_cons_in u v s :
  class u = true → class v = true →
  replace_runs class by_ (u :: v :: s) = replace_runs class by_ (v :: s).
Proof.
  intros Hu Hv.
  change (replace_runs class by_ (u :: v :: s))
    with (if class u
          then if class v then replace_runs class by_ (v :: s)
               else by_ :: replace_runs class by_ (v :: s)
          else u :: replace_runs class by_ (v :: s)).
  by rewrite Hu, Hv.
Qed.

(** A whole run, however long, becomes one [by_]. *)
Lemma replace_runs_run run u s :
  run ≠ [] →
  Forall (λ v, class v = true) run →
  class u = false →
  replace_runs class by_ (run ++ u :: s)
  = by_ :: u :: replace_runs class by_ s.
Proof.
  intros Hne Hrun Hu. induction Hrun as [| v run Hv Hrun IH]; [done |].
  destruct run as [| w run'].
  - cbn. by rewrite Hv, Hu.
  - inversion Hrun as [| ? ? Hw _]; subst.
    rewrite <- !app_comm_cons in *.
    rewrite replace_runs_cons_in by done. by apply IH.
Qed.

Lemma replace_runs_Forall (Q : N → Prop) s :
  Q by_ →
  Forall (λ u, class u = false → Q u) s →
  Forall Q (replace_runs class by_ s).
Proof.
  intros Hby. induction 1 as [| u s Hu Hs IH]; [constructor |].
  cbn [replace_runs]. destruct (class u) eqn:Hcu.
  - destruct s as [| v s']; [by repeat constructor |].
    destruct (class v); [exact IH | by constructor].
  - constructor; auto.
Qed.

Lemma replace_runs_no_adjacent s :
  has_adjacent class (replace_runs class by_ s) = false.
Proof.
  induction s as [| u s IH]; [done |].
  cbn [replace_runs]. destruct (class u) eqn:Hu.
  - destruct s as [| v s']; [done |].
    destruct (class v) eqn:Hv; [exact IH |].
    rewrite replace_runs_cons_out in * by done.
    cbn [has_adjacent] in *. by rewrite IH, Hv, andb_false_r.
  - destruct (replace_runs class by_ s) as [| w l]; [done |].
    cbn [has_adjacent] in *. by rewrite Hu.
Qed.

Lemma replace_runs_id_none s :
  Forall (λ u, class u = false) s → replace_runs class by_ s = s.
Proof.
  induction 1 as [| u s Hu _ IH]; [done |].
  by rewrite replace_runs_cons_out, IH.
Qed.

Lemma has_adjacent_tail u s :
  has_adjacent class (u :: s) = false → has_adjacent class s = false.
Proof.
  destruct s as [| v s']; [done |]. cbn [has_adjacent].
  by intros [_ ?]%orb_false_iff.
Qed.

Lemma replace_runs_id_single s :
  (∀ u, class u = true → u = by_) →
  has_adjacent class s = false →
  replace_runs class by_ s = s.
Proof.
  intros Hby. induction s as [| u s IH]; [done |]. intros Hadj.
  pose proof (has_adjacent_tail _ _ Hadj) as Htl.
  cbn [replace_runs]. destruct (class u) eqn:Hu.
  - destruct s as [| v s']; [by rewrite (Hby u Hu) |].
    cbn [has_adjacent] in Hadj. apply orb_false_iff in Hadj as [Huv _].
    rewrite Hu in Huv. cbn in Huv. rewrite Huv, IH by done.
    by rewrite (Hby u Hu).
  - by rewrite IH.
Qed.

Lemma replace_runs_all s :
  Forall (λ u, class u = true) s →
  replace_runs class by_ s = [] ∨ replace_runs class by_ s = [by_].
Proof.
  induction 1 as [| u s Hu Hs IH]; [by left |].
  cbn [replace_runs]. rewrite Hu. destruct s as [| v s']; [by right |].
  inversion Hs as [| ? ? Hv _]; subst. by rewrite Hv.
Qed.

Lemma replace_runs_keeps u s :
  u ∈ s → class u = false → u ∈ replace_runs class by_ s.
Proof.
  intros Hin Hu. induction s as [| v s IH]; [by apply elem_of_nil in Hin |].
  apply elem_of_cons in Hin as [<- | Hin].
  - rewrite replace_runs_cons_out by done. apply elem_of_cons; by left.
  - specialize (IH Hin). cbn [replace_runs]. destruct (class v).
    + destruct s as [| w s']; [by apply elem_of_nil in Hin |].
      destruct (class w); [done | apply elem_of_cons; by right].
    + apply elem_of_cons; by right.
Qed.

Lemma drop_while_id s :
  Forall (λ u, class u = false) s → drop_while class s = s.
Proof. destruct 1 as [| u s Hu _]; [done |]. cbn. by rewrite Hu. Qed.

Lemma drop_while_sub u s : u ∈ drop_while class s → u ∈ s.
Proof.
  induction s as [| v s IH]; [done |]. cbn. destruct (class v); [| done].
  intros ?%IH. apply elem_of_cons; by right.
Qed.

Lemma drop_while_keeps u s :
  u ∈ s → class u = false → u ∈ drop_while class s.
Proof.
  intros Hin Hu. induction s as [| v s IH]; [done |]. cbn.
  destruct (class v) eqn:Hv; [| done].
  apply elem_of_cons in Hin as [-> | Hin]; [congruence | auto].
Qed.

End RegexReplace.

Lemma trim_id s :
  Forall (λ u, is_white_space u = false) s → trim s = s.
Proof.
  intros Hs. unfold trim. rewrite (drop_while_id _ s Hs).
  rewrite drop_while_id; [apply rev_involutive |].
  apply List.Forall_rev, Hs.
Qed.

Lemma trim_sub u s : u ∈ trim s → u ∈ s.
Proof.
  unfold trim. rewrite list_elem_of_In, <- List.in_rev, <- list_elem_of_In.
  intros H%drop_while_sub.
  rewrite list_elem_of_In, <- List.in_rev, <- list_elem_of_In in H.
  by apply drop_while_sub in H.
Qed.

Lemma trim_keeps u s : u ∈ s → is_white_space u = false → u ∈ trim s.
Proof.
  intros Hin Hu. unfold trim.
  rewrite list_elem_of_In, <- List.in_rev, <- list_elem_of_In.
  apply drop_while_keeps; [| done].
  rewrite list_elem_of_In, <- List.in_rev, <- list_elem_of_In.
  by apply drop_while_keeps.
Qed.

Section Slug.
Variables normalize_NFD toLowerCase : CodeUnits → CodeUnits.
Local Abbreviation slug := (gerarSlug normalize_NFD toLowerCase).

Lemma gerarSlug_units title :
  Forall (λ u, is_slug_unit u = true) (slug title).
Proof.
  unfold gerarSlug. cbn zeta.
  apply replace_runs_Forall; [done |].
  apply Forall_impl with (P := λ u, is_slug_unit u = true); [| auto].
  apply replace_runs_Forall; [done |].
  eapply Forall_impl; [apply (remove_all_none is_strange) |].
  intros u Hs Hw. by apply kept_unit_is_slug_unit.
Qed.

Lemma gerarSlug_no_adjacent title :
  has_adjacent is_hyphen (slug title) = false.
Proof. apply replace_runs_no_adjacent. Qed.

Lemma gerarSlug_fixes s :
  normalize_NFD s = s →
  toLowerCase s = s →
  Forall (λ u, is_slug_unit u = true) s →
  has_adjacent is_hyphen s = false →
  slug s = s.
Proof.
  intros Hn Hl Hs Hadj. unfold gerarSlug. cbn zeta.
  assert (Hsp : Forall (λ u, is_white_space u = false) s)
    by (eapply Forall_impl; [exact Hs | apply slug_unit_not_space]).
  rewrite Hn, (remove_all_id is_combining_mark s)
    by (eapply Forall_impl; [exact Hs | apply slug_unit_not_mark]).
  rewrite Hl, (trim_id s Hsp).
  rewrite (remove_all_id is_strange s)
    by (eapply Forall_impl; [exact Hs | apply slug_unit_not_strange]).
  rewrite (replace_runs_id_none is_white_space hyphen s Hsp).
  apply replace_runs_id_single; [| exact Hadj].
  unfold is_hyphen. by intros u ?%N.eqb_eq.
Qed.

End Slug.

(** Whatever the title, and whatever the runtime's tables, the slug holds
    only lower-case ASCII letters, digits and hyphens: no white space, no
    upper-case letter, no accent, nothing that needs escaping in a URL. *)
Theorem gerarSlug_alphabet
  (normalize_NFD toLowerCase : CodeUnits → CodeUnits) (title : CodeUnits) :
  Forall (λ u, is_lower_az u || is_digit u || is_hyphen u = true)
    (gerarSlug normalize_NFD toLowerCase title) ∧
  Forall (λ u, is_white_space u = false)
    (gerarSlug normalize_NFD toLowerCase title).
Proof.
  pose proof (gerarSlug_units normalize_NFD toLowerCase title) as H.
  split; [exact H |].
  eapply Forall_impl; [exact H | apply slug_unit_not_space].
Qed.

(** A slug never has two hyphens in a row. *)
Theorem gerarSlug_no_double_hyphen
  (normalize_NFD toLowerCase : CodeUnits → CodeUnits) (title : CodeUnits)
  (i : nat) :
  gerarSlug normalize_NFD toLowerCase title !! i = Some hyphen →
  gerarSlug normalize_NFD toLowerCase title !! (S i) ≠ Some hyphen.
Proof.
  pose proof (gerarSlug_no_adjacent normalize_NFD toLowerCase title) as H.
  revert i H. generalize (gerarSlug normalize_NFD toLowerCase title).
  induction l as [| u l IH]; intros i Hadj Hi Hsi; [done |].
  destruct i as [| i].
  - cbn in Hi, Hsi. injection Hi as ->. destruct l as [| v l']; [done |].
    cbn in Hsi. injection Hsi as ->. by cbn in Hadj.
  - apply (IH i); [| done | done].
    by apply has_adjacent_tail in Hadj.
Qed.

Lemma gerarSlug_no_double_hyphen_example :
  gerarSlug nfd_latin1 lower_latin1 (Utf16.lit "a - b")
    = Utf16.lit "a-b" ∧
  gerarSlug nfd_latin1 lower_latin1 (Utf16.lit "a - b") !! 2%nat
    ≠ Some hyphen.
Proof.
  split; [vm_compute; reflexivity |].
  apply (gerarSlug_no_double_hyphen nfd_latin1 lower_latin1
           (Utf16.lit "a - b") 1). vm_compute. reflexivity.
Defined.

(** With a runtime that leaves ASCII letters, digits and hyphens alone, as
    NFD and lower-casing do, the strings [gerarSlug] returns unchanged are
    exactly the strings over [a-z], [0-9] and the hyphen without two
    hyphens in a row; so slugging a slug changes nothing. *)
Theorem gerarSlug_fixed_points
  (normalize_NFD toLowerCase : CodeUnits → CodeUnits) :
  (∀ s, Forall (λ u, is_slug_unit u = true) s → normalize_NFD s = s) →
  (∀ s, Forall (λ u, is_slug_unit u = true) s → toLowerCase s = s) →
  (∀ s,
     gerarSlug normalize_NFD toLowerCase s = s ↔
     Forall (λ u, is_slug_unit u = true) s ∧
     has_adjacent is_hyphen s = false) ∧
  (∀ title,
     gerarSlug normalize_NFD toLowerCase
       (gerarSlug normalize_NFD toLowerCase title)
     = gerarSlug normalize_NFD toLowerCase title).
Proof.
  intros Hn Hl.
  assert (Hfix : ∀ s,
            Forall (λ u, is_slug_unit u = true) s →
            has_adjacent is_hyphen s = false →
            gerarSlug normalize_NFD toLowerCase s = s).
  { intros s Hs Hadj. apply gerarSlug_fixes; auto. }
  split.
  - intros s. split.
    + intros <-. split; [apply gerarSlug_units | apply gerarSlug_no_adjacent].
    + intros [Hs Hadj]. by apply Hfix.
  - intros title.
    apply Hfix; [apply gerarSlug_units | apply gerarSlug_no_adjacent].
Qed.

Lemma below_forall (bound : nat) (test : N → bool) :
  forallb (λ n, test (N.of_nat n)) (seq 0 bound) = true →
  ∀ u, (u < N.of_nat bound)%N → test u = true.
Proof.
  intros Hall u Hu. rewrite List.forallb_forall in Hall.
  specialize (Hall (N.to_nat u)). rewrite N2Nat.id in Hall.
  apply Hall, List.in_seq. lia.
Qed.

Lemma decompose_latin1_below_192 u : (u < 192)%N → decompose_latin1 u = [u].
Proof.
  intros Hu.
  pose proof (below_forall 192
                (λ u, match decompose_latin1 u with
                      | [v] => (v =? u)%N
                      | _ => false
                      end)
                ltac:(vm_compute; reflexivity) u Hu) as Htest.
  cbn beta in Htest. destruct (decompose_latin1 u) as [| v [| ? ?]]; try done.
  by apply N.eqb_eq in Htest as ->.
Qed.

Lemma nfd_latin1_fixes_slugs s :
  Forall (λ u, is_slug_unit u = true) s → nfd_latin1 s = s.
Proof.
  induction 1 as [| u s Hu _ IH]; [done |].
  unfold nfd_latin1 in *. cbn [flat_map]. rewrite IH.
  rewrite decompose_latin1_below_192; [done |].
  revert Hu. unfold is_slug_unit, is_lower_az, is_digit, is_hyphen, hyphen.
  unbool. lia.
Qed.

Lemma lower_latin1_fixes_slugs s :
  Forall (λ u, is_slug_unit u = true) s → lower_latin1 s = s.
Proof.
  induction 1 as [| u s Hu _ IH]; [done |].
  unfold lower_latin1 in *. cbn [fmap list_fmap]. rewrite IH. f_equal.
  assert (H : ((65 <=? u) && (u <=? 90)
               || (192 <=? u) && (u <=? 222) && negb (u =? 215))%N = false);
    [| by rewrite H].
  revert Hu. unfold is_slug_unit, is_lower_az, is_digit, is_hyphen, hyphen.
  unbool. lia.
Qed.

(** On Latin-1 titles: the slug of a slug is that slug. *)
Lemma gerarSlug_idempotent_latin1 :
  gerarSlug nfd_latin1 lower_latin1
    (gerarSlug nfd_latin1 lower_latin1 (Utf16.lit " Chips de café na água"))
  = gerarSlug nfd_latin1 lower_latin1 (Utf16.lit " Chips de café na água").
Proof.
  apply (gerarSlug_fixed_points nfd_latin1 lower_latin1
           nfd_latin1_fixes_slugs lower_latin1_fixes_slugs).
Defined.

(** A title that, accents stripped and lower-cased, holds no ASCII letter
    and no digit gets the empty slug or the slug ["-"], and only such a
    title does: titles in another script all collide. *)
Theorem gerarSlug_degenerate
  (normalize_NFD toLowerCase : CodeUnits → CodeUnits) (title : CodeUnits) :
  gerarSlug normalize_NFD toLowerCase title = [] ∨
  gerarSlug normalize_NFD toLowerCase title = [hyphen]
  ↔ Forall (λ u, is_lower_az u || is_digit u = false)
      (toLowerCase (remove_all is_combining_mark (normalize_NFD title))).
Proof.
  unfold gerarSlug. cbn zeta.
  set (w := toLowerCase (remove_all is_combining_mark (normalize_NFD title))).
  split.
  - intros Hdeg. apply List.Forall_forall. intros u Hin%list_elem_of_In.
    destruct (is_lower_az u || is_digit u) eqn:Hu; [exfalso | done].
    assert (Hslug : u ∈ replace_runs is_hyphen hyphen
                      (replace_runs is_white_space hyphen
                         (remove_all is_strange (trim w)))).
    { apply replace_runs_keeps; [| by apply alnum_not_hyphen].
      apply replace_runs_keeps; [| by apply alnum_not_space].
      apply remove_all_keeps; [| by apply alnum_not_strange].
      apply trim_keeps; [done | by apply alnum_not_space]. }
    destruct Hdeg as [H | H]; rewrite H in Hslug.
    + by apply elem_of_nil in Hslug.
    + apply elem_of_cons in Hslug as [-> | Hnil%elem_of_nil]; done.
  - intros Hw. apply replace_runs_all.
    apply replace_runs_Forall; [done |].
    apply List.Forall_forall. intros u Hin%list_elem_of_In Hsp.
    pose proof (remove_all_none is_strange (trim w)) as Hk.
    rewrite List.Forall_forall in Hk, Hw.
    specialize (Hk u (proj1 (list_elem_of_In _ _) Hin)).
    apply remove_all_sub, trim_sub, list_elem_of_In, Hw in Hin.
    revert Hk Hin Hsp. unfold is_strange.
    by destruct (is_lower_az u), (is_digit u), (is_white_space u),
      (is_hyphen u).
Qed.

(** The documented examples of [gerarSlug], with the runtime's tables on
    Latin-1. *)
Example gerarSlug_documented_examples :
  gerarSlug nfd_latin1 lower_latin1
    (Utf16.lit "Teoria dos semáforos empáticos")
  = Utf16.lit "teoria-dos-semaforos-empaticos" ∧
  gerarSlug nfd_latin1 lower_latin1 (Utf16.lit " Chips de café na água")
  = Utf16.lit "chips-de-cafe-na-agua".
Proof. split; vm_compute; reflexivity. Qed.

(** The slug is trimmed of white space only: a title that starts or ends
    with punctuation next to a space keeps a hyphen there. *)
Example gerarSlug_edge_hyphens :
  gerarSlug nfd_latin1 lower_latin1 (Utf16.lit "¿Quem sabe ?")
  = Utf16.lit "quem-sabe-" ∧
  gerarSlug nfd_latin1 lower_latin1 (Utf16.lit "日本語") = [] ∧
  gerarSlug nfd_latin1 lower_latin1 (Utf16.lit "? ?") = Utf16.lit "-".
Proof. repeat split; vm_compute; reflexivity. Qed.

(** ** The seed script *)

Arguments Utf16.lit : simpl never.
Arguments pretty : simpl never.
Arguments Obj.interpolate : simpl never.
Arguments gerarSlug : simpl never.
Local Opaque teoriasBase.

Lemma bind_run {S A B} (m : M S A) (k : A → M S B) s :
  (m ≫= k) s =
  match m s with
  | (Ok a, s', evs) =>
      let '(r, s'', evs') := k a s' in (r, s'', (evs ++ evs')%list)
  | (Thrown e, s', evs) => (Thrown e, s', evs)
  | (Halted c, s', evs) => (Halted c, s', evs)
  end.
Proof. reflexivity. Qed.

Lemma forEach_console_log {S A} (items : list A) (f : A → string) (s : S) :
  forEach items (λ x, console_log (f x) []) s
  = (Ok tt, s, (λ x, EvConsoleLog (f x) []) <$> items).
Proof.
  induction items as [| x items IH]; [done |].
  cbn [forEach]. rewrite bind_run. cbn. rewrite IH. done.
Qed.

Section SeedRuns.
Variables normalize_NFD toLowerCase : CodeUnits → CodeUnits.
Variable b : Backend.

Lemma comSlug_run t s :
  comSlug normalize_NFD toLowerCase t s =
  match comSlug_value normalize_NFD toLowerCase t with
  | Some j => (Ok j, s, [])
  | None => (Thrown (title_error t), s, [])
  end.
Proof.
  unfold comSlug, comSlug_value. rewrite bind_run.
  destruct (Obj.prop t "title") as [[title | |] |]; reflexivity.
Qed.

Lemma mapM_comSlug_run items s :
  forallb has_title items = true →
  mapM (comSlug normalize_NFD toLowerCase) items s =
  (Ok (omap (comSlug_value normalize_NFD toLowerCase) items), s, []) ∧
  length (omap (comSlug_value normalize_NFD toLowerCase) items)
  = length items.
Proof.
  induction items as [| t items IH]; [done |].
  cbn [forallb]. intros [Ht Hitems]%andb_true_iff.
  destruct (IH Hitems) as [IHrun IHlen].
  cbn [mapM omap list_omap]. rewrite bind_run, comSlug_run.
  destruct (comSlug_value normalize_NFD toLowerCase t) as [j |] eqn:Hv.
  - rewrite bind_run, IHrun. cbn. by rewrite IHlen.
  - unfold has_title, comSlug_value in *.
    by destruct (Obj.prop t "title") as [[title | |] |].
Qed.

Lemma teoriasBase_titled : forallb has_title teoriasBase = true.
Proof. vm_compute. reflexivity. Qed.

Lemma teoriasBase_length : length teoriasBase = 10%nat.
Proof. vm_compute. reflexivity. Qed.

End SeedRuns.

Lemma external_run {A} (c : Call) (answer : list Call → A + Val) s :
  external c answer s =
  match answer (calls s) with
  | inl a => (Ok a, mkSeed (seed_env s) (calls s ++ [c]), [])
  | inr e => (Thrown e, mkSeed (seed_env s) (calls s ++ [c]), [])
  end.
Proof. reflexivity. Qed.

Ltac seed_steps :=
  repeat first
    [ rewrite bind_run
    | rewrite external_run
    | progress cbn [console_log console_error emit calls seed_env mret M_ret
                    app] ].

Section SeedTables.
Variables normalize_NFD toLowerCase : CodeUnits → CodeUnits.
Variable b : Backend.

(** [criarUtilizadores], path by path. *)
Lemma criarUtilizadores_run s :
  criarUtilizadores b s =
  let env := seed_env s in
  let c0 := calls s in
  let c1 := (c0 ++ [DeleteMany UserModel])%list in
  let c2 := (c1 ++ [Hash (Utf16.lit "admin123") 10])%list in
  let c3 := (c2 ++ [Hash (Utf16.lit "user123") 10])%list in
  let log0 := EvConsoleLog "A criar utilizadores..." [] in
  match deleteMany_answer b c0 UserModel with
  | inr e => (Thrown e, mkSeed env c1, [log0])
  | inl _ =>
  match hash_answer b c1 (Utf16.lit "admin123") 10 with
  | inr e => (Thrown e, mkSeed env c2, [log0])
  | inl hA =>
  match hash_answer b c2 (Utf16.lit "user123") 10 with
  | inr e => (Thrown e, mkSeed env c3, [log0])
  | inl hU =>
  let c4 := (c3 ++ [InsertMany UserModel (seed_users hA hU)])%list in
  match insertMany_answer b c3 UserModel (seed_users hA hU) with
  | inr e => (Thrown e, mkSeed env c4, [log0])
  | inl created =>
      (Ok created, mkSeed env c4,
       [log0;
        EvConsoleLog (pretty (length created) +:+ " utilizadores criados.")
          []])
  end end end end.
Proof.
  unfold criarUtilizadores, gerarPasswordHash, bcrypt_hash, Model_deleteMany,
    Model_insertMany, seed_users.
  cbn zeta. seed_steps.
  destruct (deleteMany_answer _ _ _); [| done]. seed_steps.
  destruct (hash_answer _ _ _ _) as [hA |]; [| done]. seed_steps.
  destruct (hash_answer _ _ _ _) as [hU |]; [| done]. seed_steps.
  destruct (insertMany_answer _ _ _ _) as [created |]; [| done]. seed_steps.
  reflexivity.
Qed.

(** [criarTeorias], path by path. *)
Lemma criarTeorias_run s :
  criarTeorias normalize_NFD toLowerCase b s =
  let env := seed_env s in
  let c0 := calls s in
  let c1 := (c0 ++ [DeleteMany TheoryModel])%list in
  let docs := omap (comSlug_value normalize_NFD toLowerCase) teoriasBase in
  let c2 := (c1 ++ [InsertMany TheoryModel docs])%list in
  let log0 := EvConsoleLog "A criar teorias da conspiração..." [] in
  match deleteMany_answer b c0 TheoryModel with
  | inr e => (Thrown e, mkSeed env c1, [log0])
  | inl _ =>
  match insertMany_answer b c1 TheoryModel docs with
  | inr e => (Thrown e, mkSeed env c2, [log0])
  | inl created =>
      (Ok created, mkSeed env c2,
       [log0;
        EvConsoleLog (pretty (length created) +:+ " teorias criadas.") []])
  end end.
Proof.
  unfold criarTeorias, Model_deleteMany, Model_insertMany.
  cbn zeta. seed_steps.
  destruct (deleteMany_answer _ _ _); [| done]. seed_steps.
  rewrite (proj1 (mapM_comSlug_run normalize_NFD toLowerCase teoriasBase _
                    teoriasBase_titled)).
  seed_steps.
  destruct (insertMany_answer _ _ _ _) as [created |]; [| done]. seed_steps.
  reflexivity.
Qed.

End SeedTables.

Lemma try_catch_run {S A} (body : M S A) (handler : Val → M S A) s :
  try_catch body handler s =
  match body s with
  | (Thrown e, s', evs) =>
      let '(r, s'', evs') := handler e s' in (r, s'', (evs ++ evs')%list)
  | r => r
  end.
Proof. reflexivity. Qed.

Lemma try_finally_run {S A} (body : M S A) (final : M S unit) s :
  try_finally body final s =
  match body s with
  | (Halted c, s', evs) => (Halted c, s', evs)
  | (r, s', evs) =>
      match final s' with
      | (Ok _, s'', evs') => (r, s'', (evs ++ evs')%list)
      | (Thrown e, s'', evs') => (Thrown e, s'', (evs ++ evs')%list)
      | (Halted c, s'', evs') => (Halted c, s'', (evs ++ evs')%list)
      end
  end.
Proof. reflexivity. Qed.

Lemma with_env_run {A} (m : M Env A) s :
  with_env m s =
  let '(r, env', evs) := m (seed_env s) in (r, mkSeed env' (calls s), evs).
Proof. reflexivity. Qed.

Ltac not_in_list H :=
  repeat (apply elem_of_cons in H as [H | H]; [try discriminate H |]);
  try (by apply elem_of_nil in H).

Ltac seed_leaf :=
  rewrite <- ?app_assoc; cbn [app];
  (split;
   [ destruct (disconnect_answer _ _); rewrite <- ?app_assoc; cbn [app];
     rewrite ?app_nil_r; reflexivity |]);
  (split; [by eexists |]);
  (split; [try done |]);
  (split;
   [ let Hin := fresh "Hin" in
     intros docs Hin; not_in_list Hin;
     try (injection Hin as ->; do 2 eexists; repeat split; reflexivity) |]);
  (split;
   [ let Hin := fresh "Hin" in
     intros docs Hin; not_in_list Hin;
     try (by injection Hin as ->) |]);
  (split; [right; by eexists |]);
  (let Hin := fresh "Hin" in
   intros plain rounds Hin; not_in_list Hin;
   try (injection Hin as -> ->; auto)).

Section SeedRun.
Variables normalize_NFD toLowerCase : CodeUnits → CodeUnits.
Variable b : Backend.

(** The [catch] and [finally] of [runSeed] around any [try] block. *)
Lemma seed_shell_run (main : M SeedState unit) s :
  try_finally
    (try_catch main (λ error, console_error "Erro durante o seed:" error))
    (mongoose_disconnect b ;; console_log "Ligação ao MongoDB fechada." []) s
  =
  match main s with
  | (Halted c, s1, evs1) => (Halted c, s1, evs1)
  | (r, s1, evs1) =>
      let evs1' :=
        match r with
        | Thrown e => (evs1 ++ [EvConsoleError "Erro durante o seed:" e])%list
        | _ => evs1
        end in
      match disconnect_answer b (calls s1) with
      | inl _ =>
          (Ok tt, mkSeed (seed_env s1) (calls s1 ++ [Disconnect]),
           (evs1' ++ [EvConsoleLog "Ligação ao MongoDB fechada." []])%list)
      | inr e =>
          (Thrown e, mkSeed (seed_env s1) (calls s1 ++ [Disconnect]), evs1')
      end
  end.
Proof.
  rewrite try_finally_run, try_catch_run. unfold mongoose_disconnect.
  destruct (main s) as [[[[] | e | c] s1] evs1]; seed_steps.
  - destruct (disconnect_answer b (calls s1)) as [[] |]; seed_steps;
      by rewrite ?app_nil_r.
  - destruct (disconnect_answer b (calls s1)) as [[] |]; seed_steps;
      by rewrite ?app_nil_r.
  - done.
Qed.

Lemma runSeed_run s :
  ∃ new evs0,
    runSeed normalize_NFD toLowerCase b s =
    (match disconnect_answer b (calls s ++ new) with
     | inl _ => Ok tt
     | inr e => Thrown e
     end,
     mkSeed (seed_env s) (calls s ++ new ++ [Disconnect]),
     evs0 ++ match disconnect_answer b (calls s ++ new) with
             | inl _ => [EvConsoleLog "Ligação ao MongoDB fechada." []]
             | inr _ => []
             end)%list ∧
    kind <$> new `prefix_of` seed_plan ∧
    (seed_connects b (seed_env s) = false → new = []) ∧
    (∀ docs, InsertMany UserModel docs ∈ new →
       ∃ hA hU,
         hash_answer b (calls s ++ [DeleteMany UserModel])
           (Utf16.lit "admin123") 10 = inl hA ∧
         hash_answer b
           (calls s ++ [DeleteMany UserModel; Hash (Utf16.lit "admin123") 10])
           (Utf16.lit "user123") 10 = inl hU ∧
         docs = seed_users hA hU) ∧
    (∀ docs, InsertMany TheoryModel docs ∈ new →
       docs = omap (comSlug_value normalize_NFD toLowerCase) teoriasBase) ∧
    (kind <$> new = seed_plan ∧
     EvConsoleLog "Seed concluído com sucesso!" [] ∈ evs0 ∧
     (∀ e, EvConsoleError "Erro durante o seed:" e ∉ evs0)
     ∨
     ∃ e, last evs0 = Some (EvConsoleError "Erro durante o seed:" e)) ∧
    (∀ plain rounds,
       Hash plain rounds ∈ new →
       rounds = 10%N ∧
       (plain = Utf16.lit "admin123" ∨ plain = Utf16.lit "user123")).
Proof.
  unfold runSeed, seed_connects. rewrite seed_shell_run. seed_steps.
  rewrite with_env_run, connectToDatabase_run. cbn zeta.
  set (start := EvConsoleLog "A iniciar script de seed..." []).
  destruct (Js.not (getenv (seed_env s) "MONGODB_URI")).
  { seed_steps.
    exists [], [start; EvConsoleError "Erro durante o seed:" missing_uri_error].
    rewrite ?app_nil_r. cbn [app].
    split; [by destruct (disconnect_answer b (calls s)) |].
    split; [by eexists |]. split; [done |].
    split; [intros docs Hin; not_in_list Hin |].
    split; [intros docs Hin; not_in_list Hin |].
    split; [right; by eexists |].
    intros plain rounds Hin. not_in_list Hin. }
  destruct (mongo_answer b _ _) as [e |].
  { seed_steps. eexists [], [start; _; _; EvConsoleError _ e].
    rewrite ?app_nil_r. cbn [app].
    split; [by destruct (disconnect_answer b (calls s)) |].
    split; [by eexists |]. split; [done |].
    split; [intros docs Hin; not_in_list Hin |].
    split; [intros docs Hin; not_in_list Hin |].
    split; [right; by eexists |].
    intros plain rounds Hin. not_in_list Hin. }
  seed_steps. rewrite criarUtilizadores_run. cbn zeta. cbn [calls seed_env].
  set (connect := EvConnect _ _).
  set (connected := EvConsoleLog "Ligação ao mongo foi feita" []).
  set (users := EvConsoleLog "A criar utilizadores..." []).
  destruct (deleteMany_answer b _ UserModel) as [_ | e].
  2: { seed_steps.
       exists [DeleteMany UserModel],
         [start; connect; connected; users; EvConsoleError "Erro durante o seed:" e].
       seed_leaf. }
  rewrite <- ?app_assoc. cbn [app].
  destruct (hash_answer b (calls s ++ [DeleteMany UserModel])
              (Utf16.lit "admin123") 10) as [hA | e] eqn:HhA.
  2: { seed_steps.
       exists [DeleteMany UserModel; Hash (Utf16.lit "admin123") 10],
         [start; connect; connected; users; EvConsoleError "Erro durante o seed:" e].
       seed_leaf. }
  destruct (hash_answer b
              (calls s ++
               [DeleteMany UserModel; Hash (Utf16.lit "admin123") 10])
              (Utf16.lit "user123") 10) as [hU | e] eqn:HhU.
  2: { seed_steps.
       exists [DeleteMany UserModel; Hash (Utf16.lit "admin123") 10;
               Hash (Utf16.lit "user123") 10],
         [start; connect; connected; users; EvConsoleError "Erro durante o seed:" e].
       seed_leaf. }
  destruct (insertMany_answer b _ UserModel _) as [createdUsers | e].
  2: { seed_steps.
       exists [DeleteMany UserModel; Hash (Utf16.lit "admin123") 10;
               Hash (Utf16.lit "user123") 10;
               InsertMany UserModel (seed_users hA hU)],
         [start; connect; connected; users; EvConsoleError "Erro durante o seed:" e].
       seed_leaf. }
  seed_steps. rewrite criarTeorias_run. cbn zeta. cbn [calls seed_env].
  set (usersDone := EvConsoleLog (pretty (length createdUsers) +:+ _) []).
  set (theories := EvConsoleLog "A criar teorias da conspiração..." []).
  set (prepared := omap (comSlug_value normalize_NFD toLowerCase) teoriasBase).
  destruct (deleteMany_answer b _ TheoryModel) as [_ | e].
  2: { seed_steps.
       exists [DeleteMany UserModel; Hash (Utf16.lit "admin123") 10;
               Hash (Utf16.lit "user123") 10;
               InsertMany UserModel (seed_users hA hU);
               DeleteMany TheoryModel],
         [start; connect; connected; users; usersDone; theories;
          EvConsoleError "Erro durante o seed:" e].
       seed_leaf. }
  destruct (insertMany_answer b _ TheoryModel _) as [createdTheories | e].
  2: { seed_steps.
       exists [DeleteMany UserModel; Hash (Utf16.lit "admin123") 10;
               Hash (Utf16.lit "user123") 10;
               InsertMany UserModel (seed_users hA hU);
               DeleteMany TheoryModel; InsertMany TheoryModel prepared],
         [start; connect; connected; users; usersDone; theories;
          EvConsoleError "Erro durante o seed:" e].
       seed_leaf. }
  seed_steps. rewrite forEach_console_log. seed_steps.
  rewrite forEach_console_log. seed_steps.
  match goal with
  | |- context [(Thrown _, _, ?evs)] =>
      exists [DeleteMany UserModel; Hash (Utf16.lit "admin123") 10;
              Hash (Utf16.lit "user123") 10;
              InsertMany UserModel (seed_users hA hU);
              DeleteMany TheoryModel; InsertMany TheoryModel prepared], evs
  end.
  rewrite <- ?app_assoc. cbn [app].
  split.
  { destruct (disconnect_answer _ _); rewrite <- ?app_assoc; cbn [app];
      rewrite ?app_nil_r; reflexivity. }
  split; [by eexists |]. split; [done |].
  split.
  { intros docs Hin. not_in_list Hin. injection Hin as ->. by exists hA, hU. }
  split.
  { intros docs Hin. not_in_list Hin. by injection Hin as ->. }
  split.
  { left. split; [reflexivity |]. split.
    - do 7 (apply elem_of_cons; right). apply elem_of_cons. by left.
    - intros e Hin.
      do 9 (apply elem_of_cons in Hin as [Hin | Hin]; [done |]).
      apply elem_of_app in Hin as [Hin | Hin].
      + by apply list_elem_of_fmap in Hin as (? & ? & _).
      + apply elem_of_cons in Hin as [Hin | Hin]; [done |].
        by apply list_elem_of_fmap in Hin as (? & ? & _). }
  intros plain rounds Hin. not_in_list Hin; injection Hin as -> ->; auto.
Qed.


End SeedRun.


Lemma kind_close_not_planned (new : list Call) :
  kind <$> new `prefix_of` seed_plan → Disconnect ∉ new.
Proof.
  intros [rest Hplan] Hin.
  apply (list_elem_of_fmap_2 kind) in Hin. cbn in Hin.
  assert (Hp : KClose ∈ seed_plan).
  { rewrite Hplan. apply elem_of_app. by left. }
  unfold seed_plan in Hp. not_in_list Hp.
Qed.

(** Whatever rejects on the way, [runSeed] calls [mongoose.disconnect()]
    exactly once, as its last call, leaves the environment alone, and
    throws only what that disconnect throws: every other error is caught. *)
Theorem runSeed_always_disconnects
  (normalize_NFD toLowerCase : CodeUnits → CodeUnits) (b : Backend)
  (s : SeedState) :
  ∃ r evs new,
    runSeed normalize_NFD toLowerCase b s
      = (r, mkSeed (seed_env s) (calls s ++ new ++ [Disconnect]), evs) ∧
    (Disconnect ∉ new) ∧
    r = match disconnect_answer b (calls s ++ new) with
        | inl _ => Ok tt
        | inr e => Thrown e
        end.
Proof.
  destruct (runSeed_run normalize_NFD toLowerCase b s)
    as (new & evs0 & Hrun & Hplan & _).
  do 2 eexists. exists new. split; [exact Hrun |].
  split; [by apply kind_close_not_planned | done].
Qed.

(** The calls of a run, before the closing disconnect, are an initial part
    of the fixed plan: empty the users, hash twice, insert the users, empty
    the theories, insert the theories. Nothing is inserted into a
    collection that was not emptied first, and the theories are not
    touched before the users are in. *)
Theorem runSeed_follows_plan
  (normalize_NFD toLowerCase : CodeUnits → CodeUnits) (b : Backend)
  (s : SeedState) :
  ∃ r evs new,
    runSeed normalize_NFD toLowerCase b s
      = (r, mkSeed (seed_env s) (calls s ++ new ++ [Disconnect]), evs) ∧
    kind <$> new `prefix_of`
      [KDelete UserModel; KHash; KHash; KInsert UserModel;
       KDelete TheoryModel; KInsert TheoryModel].
Proof.
  destruct (runSeed_run normalize_NFD toLowerCase b s)
    as (new & evs0 & Hrun & Hplan & _).
  do 2 eexists. exists new. split; [exact Hrun | exact Hplan].
Qed.



(** The user documents [runSeed] inserts are the two of the script, and
    their [passwordHash] fields hold what [bcrypt.hash] returned for
    ["admin123"] and ["user123"] at cost 10: the plain passwords go to
    [bcrypt] only. *)
Theorem runSeed_inserts_hashed_users
  (normalize_NFD toLowerCase : CodeUnits → CodeUnits) (b : Backend)
  (s : SeedState) :
  ∃ r evs new,
    runSeed normalize_NFD toLowerCase b s
      = (r, mkSeed (seed_env s) (calls s ++ new ++ [Disconnect]), evs) ∧
    (∀ plain rounds,
       Hash plain rounds ∈ new →
       rounds = 10%N ∧
       (plain = Utf16.lit "admin123" ∨ plain = Utf16.lit "user123")) ∧
    (∀ docs,
       InsertMany UserModel docs ∈ new →
       ∃ hA hU,
         hash_answer b (calls s ++ [DeleteMany UserModel])
           (Utf16.lit "admin123") 10 = inl hA ∧
         hash_answer b
           (calls s ++ [DeleteMany UserModel; Hash (Utf16.lit "admin123") 10])
           (Utf16.lit "user123") 10 = inl hU ∧
         docs = seed_users hA hU ∧
         (Obj_keys <$> docs)
         = [["email"; "displayName"; "passwordHash"; "role"];
            ["email"; "displayName"; "passwordHash"; "role"]] ∧
         ((λ d, Obj.prop d "passwordHash") <$> docs)
         = [Some (JStr hA); Some (JStr hU)]).
Proof.
  destruct (runSeed_run normalize_NFD toLowerCase b s)
    as (new & evs0 & Hrun & Hplan & _ & Husers & _ & _ & Hhash).
  do 2 eexists. exists new. split; [exact Hrun |]. split.
  - exact Hhash.
  - intros docs Hin. destruct (Husers docs Hin) as (hA & hU & ? & ? & ->).
    by exists hA, hU.
Qed.


Section ObjectLiterals.
Implicit Types (k : string) (v : Json) (props : list (string * Json)).

Lemma lookup_define_eq k v props :
  Obj.lookup k (Obj.define k v props) = Some v.
Proof.
  induction props as [| [k' v'] props IH]; cbn.
  - by rewrite String.eqb_refl.
  - destruct (String.eqb k k') eqn:Hk; cbn; by rewrite Hk.
Qed.

Lemma lookup_define_ne k k' v props :
  k ≠ k' → Obj.lookup k' (Obj.define k v props) = Obj.lookup k' props.
Proof.
  intros Hne.
  assert (Hk' : String.eqb k' k = false) by (apply String.eqb_neq; congruence).
  induction props as [| [k'' v''] props IH]; cbn.
  - by rewrite Hk'.
  - destruct (String.eqb k k'') eqn:Hk; cbn; [| by rewrite IH].
    apply String.eqb_eq in Hk as <-. by rewrite Hk'.
Qed.

Lemma keys_define k v props :
  (Obj.define k v props).*1 =
  if bool_decide (k ∈ props.*1) then props.*1 else (props.*1 ++ [k])%list.
Proof.
  induction props as [| [k' v'] props IH]; [done |]. cbn.
  destruct (String.eqb k k') eqn:Hk.
  - apply String.eqb_eq in Hk as <-. cbn.
    rewrite bool_decide_eq_true_2; [done |]. apply elem_of_cons. by left.
  - apply String.eqb_neq in Hk. cbn. rewrite IH.
    destruct (bool_decide (k ∈ props.*1)) eqn:Hin.
    + apply bool_decide_eq_true_1 in Hin.
      rewrite bool_decide_eq_true_2; [done |]. apply elem_of_cons. by right.
    + apply bool_decide_eq_false_1 in Hin.
      rewrite bool_decide_eq_false_2; [done |].
      intros [? | ?]%elem_of_cons; done.
Qed.

End ObjectLiterals.

(** The callback of [criarTeorias] on any value. Without a string [title]
    it throws. With one, it returns an object that has [slug], the slug of
    the title; has [comments], those of the theory when it has truthy ones
    and the empty array otherwise; agrees with the theory on every other
    property; and lists the theory's properties in their order, followed
    by [slug] and [comments] where they are new. *)
Theorem comSlug_spec
  (normalize_NFD toLowerCase : CodeUnits → CodeUnits)
  (t : Json) (s : SeedState) :
  match Obj.prop t "title" with
  | Some (JStr title) =>
      ∃ d,
        comSlug normalize_NFD toLowerCase t s = (Ok d, s, []) ∧
        Obj.prop d "slug"
          = Some (JStr (gerarSlug normalize_NFD toLowerCase title)) ∧
        Obj.prop d "comments"
          = Some match Obj.prop t "comments" with
                 | Some c => if Obj.truthy c then c else JArr []
                 | None => JArr []
                 end ∧
        (∀ k, k ≠ "slug" → k ≠ "comments" → Obj.prop d k = Obj.prop t k) ∧
        Obj_keys d =
          (Obj_keys t
           ++ (if bool_decide ("slug" ∈ Obj_keys t) then [] else ["slug"])
           ++ (if bool_decide ("comments" ∈ Obj_keys t) then []
               else ["comments"]))%list
  | Some _ =>
      comSlug normalize_NFD toLowerCase t s
        = (Thrown (VError "title.normalize is not a function"), s, [])
  | None =>
      comSlug normalize_NFD toLowerCase t s
        = (Thrown
             (VError
                "Cannot read properties of undefined (reading 'normalize')"),
           s, [])
  end.
Proof.
  rewrite comSlug_run. unfold comSlug_value, title_error.
  destruct (Obj.prop t "title") as [[title | |] |] eqn:Ht; try done.
  destruct t as [| | props]; try done. cbn [Obj.prop Obj.spread] in *.
  eexists. split; [reflexivity |]. cbn [Obj.prop Obj_keys].
  split; [| split; [| split]].
  - rewrite lookup_define_ne by done. apply lookup_define_eq.
  - apply lookup_define_eq.
  - intros k Hs Hc. by rewrite !lookup_define_ne.
  - rewrite !keys_define.
    destruct (bool_decide ("slug" ∈ props.*1)) eqn:Hslug.
    + cbn [app].
      destruct (bool_decide ("comments" ∈ props.*1)); by rewrite ?app_nil_r.
    + destruct (bool_decide ("comments" ∈ props.*1)) eqn:Hc.
      * rewrite bool_decide_eq_true_2; [by rewrite app_nil_r |].
        apply bool_decide_eq_true_1 in Hc. apply elem_of_app. by left.
      * rewrite bool_decide_eq_false_2; [by rewrite <- app_assoc |].
        apply bool_decide_eq_false_1 in Hc.
        intros [? | Hin]%elem_of_app; [done |]. not_in_list Hin.
Qed.

Lemma comSlug_value_facts
  (normalize_NFD toLowerCase : CodeUnits → CodeUnits) (t : Json) title :
  title_of t = Some title →
  comments_listed t = true →
  ∃ d items,
    comSlug_value normalize_NFD toLowerCase t = Some d ∧
    title_of d = Some title ∧
    slug_of d = Some (gerarSlug normalize_NFD toLowerCase title) ∧
    Obj.prop d "comments" = Some (JArr items).
Proof.
  unfold title_of, slug_of, comments_listed, comSlug_value.
  destruct (Obj.prop t "title") as [[title' | |] |] eqn:Ht; try done.
  intros [= ->] Hc. destruct t as [| | props]; try done.
  cbn [Obj.prop Obj.spread] in *.
  assert (∃ items,
            match Obj.lookup "comments" props with
            | Some c => if Obj.truthy c then c else JArr []
            | None => JArr []
            end = JArr items) as [items Hitems].
  { destruct (Obj.lookup "comments" props) as [[| items |] |]; try done;
      by eexists. }
  rewrite Hitems. do 2 eexists. split; [reflexivity |].
  cbn [Obj.prop]. rewrite !lookup_define_ne by done.
  by rewrite Ht, !lookup_define_eq.
Qed.

Lemma omap_comSlug_value_facts
  (normalize_NFD toLowerCase : CodeUnits → CodeUnits) (items : list Json) :
  forallb (λ t, has_title t && comments_listed t) items = true →
  let docs := omap (comSlug_value normalize_NFD toLowerCase) items in
  title_of <$> docs = title_of <$> items ∧
  Forall (λ d, ∃ title comments,
            title_of d = Some title ∧
            slug_of d = Some (gerarSlug normalize_NFD toLowerCase title) ∧
            Obj.prop d "comments" = Some (JArr comments)) docs.
Proof.
  induction items as [| t items IH]; [by split |].
  cbn [forallb]. intros [[Ht Hc]%andb_true_iff Hitems]%andb_true_iff.
  destruct (IH Hitems) as [IHt IHd]. cbn zeta in *.
  assert (∃ title, title_of t = Some title) as [title Htitle].
  { unfold has_title, title_of in *.
    destruct (Obj.prop t "title") as [[title | |] |]; try done. by eexists. }
  destruct (comSlug_value_facts normalize_NFD toLowerCase t title Htitle Hc)
    as (d & comments & Hd & Hdt & Hds & Hdc).
  cbn [omap list_omap]. rewrite Hd. cbn [fmap list_fmap].
  split; [by rewrite Hdt, Htitle, <- IHt |].
  constructor; [by exists title, comments | exact IHd].
Qed.

Lemma teoriasBase_checked :
  forallb (λ t, has_title t && comments_listed t) teoriasBase = true.
Proof. vm_compute. reflexivity. Qed.

(** The theory documents [runSeed] inserts are the ten of the script, in
    order and with their titles; each carries [slug], the slug of its
    title, and an array under [comments], also the theory written without
    comments. *)
Theorem runSeed_inserts_slugged_theories
  (normalize_NFD toLowerCase : CodeUnits → CodeUnits) (b : Backend)
  (s : SeedState) :
  ∃ r evs new,
    runSeed normalize_NFD toLowerCase b s
      = (r, mkSeed (seed_env s) (calls s ++ new ++ [Disconnect]), evs) ∧
    (∀ docs,
       InsertMany TheoryModel docs ∈ new →
       length docs = 10%nat ∧
       title_of <$> docs = title_of <$> teoriasBase ∧
       Forall (λ d, ∃ title comments,
                 title_of d = Some title ∧
                 slug_of d
                   = Some (gerarSlug normalize_NFD toLowerCase title) ∧
                 Obj.prop d "comments" = Some (JArr comments)) docs).
Proof.
  destruct (runSeed_run normalize_NFD toLowerCase b s)
    as (new & evs0 & Hrun & _ & _ & _ & Hdocs & _).
  do 2 eexists. exists new. split; [exact Hrun |].
  intros docs ->%Hdocs.
  destruct (omap_comSlug_value_facts normalize_NFD toLowerCase teoriasBase
              teoriasBase_checked) as [Ht Hd].
  split; [| by split].
  rewrite (proj2 (mapM_comSlug_run normalize_NFD toLowerCase teoriasBase
                    (mkSeed ∅ []) teoriasBase_titled)).
  apply teoriasBase_length.
Qed.

(** ** The runtime's tables on Latin-1 text *)

Lemma latin1_survives_decomposition s :
  is_latin1 s = true →
  is_latin1 (remove_all is_combining_mark (nfd_latin1 s)) = true.
Proof.
  unfold is_latin1, nfd_latin1, remove_all.
  induction s as [| u s IH]; [done |]. cbn [forallb flat_map].
  intros [Hu Hs]%andb_true_iff. rewrite List.filter_app, List.forallb_app.
  rewrite (IH Hs), andb_true_r.
  apply (below_forall 256
           (λ u, forallb (λ v, v <? 256)%N
                   (List.filter (λ v, negb (is_combining_mark v))
                      (decompose_latin1 u)))
           ltac:(vm_compute; reflexivity)).
  by apply N.ltb_lt.
Qed.

Lemma gerarSlug_on_latin1
  (normalize_NFD toLowerCase : CodeUnits → CodeUnits) title :
  (∀ s, is_latin1 s = true → normalize_NFD s = nfd_latin1 s) →
  (∀ s, is_latin1 s = true → toLowerCase s = lower_latin1 s) →
  is_latin1 title = true →
  gerarSlug normalize_NFD toLowerCase title
  = gerarSlug nfd_latin1 lower_latin1 title.
Proof.
  intros Hn Hl Ht. unfold gerarSlug. cbn zeta.
  rewrite (Hn title Ht), Hl; [done |].
  by apply latin1_survives_decomposition.
Qed.

(** On a runtime whose NFD and lower-casing are, on text below U+0100,
    what Unicode says, [gerarSlug] returns for the two titles of its doc
    comment the two slugs the comment gives. *)
Theorem gerarSlug_matches_its_documentation
  (normalize_NFD toLowerCase : CodeUnits → CodeUnits) :
  (∀ s, is_latin1 s = true → normalize_NFD s = nfd_latin1 s) →
  (∀ s, is_latin1 s = true → toLowerCase s = lower_latin1 s) →
  gerarSlug normalize_NFD toLowerCase
    (Utf16.lit "Teoria dos semáforos empáticos")
  = Utf16.lit "teoria-dos-semaforos-empaticos" ∧
  gerarSlug normalize_NFD toLowerCase (Utf16.lit " Chips de café na água")
  = Utf16.lit "chips-de-cafe-na-agua".
Proof.
  intros Hn Hl.
  rewrite !(gerarSlug_on_latin1 normalize_NFD toLowerCase _ Hn Hl)
    by (vm_compute; reflexivity).
  split; vm_compute; reflexivity.
Qed.

Lemma gerarSlug_matches_its_documentation_latin1 :
  gerarSlug nfd_latin1 lower_latin1
    (Utf16.lit "Teoria dos semáforos empáticos")
  = Utf16.lit "teoria-dos-semaforos-empaticos" ∧
  gerarSlug nfd_latin1 lower_latin1 (Utf16.lit " Chips de café na água")
  = Utf16.lit "chips-de-cafe-na-agua".
Proof.
  apply (gerarSlug_matches_its_documentation nfd_latin1 lower_latin1);
    reflexivity.
Defined.

Lemma omap_comSlug_value_latin1
  (normalize_NFD toLowerCase : CodeUnits → CodeUnits) (items : list Json) :
  (∀ s, is_latin1 s = true → normalize_NFD s = nfd_latin1 s) →
  (∀ s, is_latin1 s = true → toLowerCase s = lower_latin1 s) →
  forallb (λ t, from_option is_latin1 true (title_of t)) items = true →
  omap (comSlug_value normalize_NFD toLowerCase) items
  = omap (comSlug_value nfd_latin1 lower_latin1) items.
Proof.
  intros Hn Hl. induction items as [| t items IH]; [done |].
  cbn [forallb]. intros [Ht Hitems]%andb_true_iff.
  cbn [omap list_omap]. rewrite (IH Hitems).
  unfold comSlug_value, title_of in *.
  destruct (Obj.prop t "title") as [[title | |] |]; try done.
  cbn in Ht. by rewrite (gerarSlug_on_latin1 _ _ title Hn Hl Ht).
Qed.

(** On such a runtime the ten theories of the script get ten different
    slugs, none of them empty: the slug can serve as their key. *)
Theorem seeded_slugs_are_distinct
  (normalize_NFD toLowerCase : CodeUnits → CodeUnits) :
  (∀ s, is_latin1 s = true → normalize_NFD s = nfd_latin1 s) →
  (∀ s, is_latin1 s = true → toLowerCase s = lower_latin1 s) →
  let slugs :=
    omap slug_of
      (omap (comSlug_value normalize_NFD toLowerCase) teoriasBase) in
  length slugs = 10%nat ∧ NoDup slugs ∧ [] ∉ slugs.
Proof.
  intros Hn Hl.
  rewrite (omap_comSlug_value_latin1 _ _ teoriasBase Hn Hl)
    by (vm_compute; reflexivity).
  cbn zeta. split; [vm_compute; reflexivity |].
  split; apply (bool_decide_unpack _); vm_compute; exact I.
Qed.

Lemma seeded_slugs_are_distinct_latin1 :
  NoDup (omap slug_of
           (omap (comSlug_value nfd_latin1 lower_latin1) teoriasBase)).
Proof.
  apply (seeded_slugs_are_distinct nfd_latin1 lower_latin1); reflexivity.
Defined.
